(* ===== verification/_CoqProject ===== *)
-Q . S2P
Prelude.v
JsValue.v
Panel.v
Dialog.v
World.v
Fixtures.v
Denormalise.v
TabPanels.v
Handler.v
Spec.v
Refinement.v
Constructor.v
Lifecycle.v
