(* ===== verification/Prelude.v ===== *)
(** * portal-core, [CSWFilterWindow.js]: a verification development

    ** The program

    [src/main/webapp/portal-core/js/portal/widgets/window/CSWFilterWindow.js]
    defines the Ext JS class [portal.widgets.window.CSWFilterWindow], a
    modal dialog that holds one filter form.  Its code has three parts:

    - the [constructor] (lines 6-63), which registers the event
      [filterselectcomplete], creates the form panel, copies the
      dialog's title, size, form and its one button onto the caller's
      configuration object with [Ext.apply] and passes that object to
      the constructor of [Ext.window.Window];
    - the [handler] of the Search button (lines 27-56): when the form is
      valid it reads the form's values, walks over their keys with
      [for-in], and at the key [cswServiceId] coerces the value to an
      array in place and calls [this._getTabPanels] once per element; it
      then fires [filterselectcomplete] with the collected panels,
      creates and shows a [CSWSelectionWindow] and closes the dialog;
    - the method [_getTabPanels] (lines 77-143), which flattens the
      form's values into two parallel arrays with the local closure
      [denormaliseKvp] (lines 85-94), appends the pair
      [cswServiceId]/selected id, creates an [Ext.data.Store] that is not
      loaded (page size 35, the two arrays as [extraParams]), scans the
      checked boxes of the component [registryTabCheckboxGroup] for the
      label of the selected id (first match, fallback
      ["Error retrieving title"]) and returns the panel descriptor.

    The constructor installs the handler on the Search button with
    [scope : this], a click calls the handler with the window as
    [this], the handler calls the method, the method calls the closure;
    the closure and the handler each assign an undeclared loop variable
    ([key], [additionalParamKey]), which makes these two names shared
    state between them.

    ** The files, in dependency order

    - [Prelude] (this file): the result type, the state-and-exception
      computations [Comp] the imperative code is written in, their
      notation (scope [js_scope]), the two loop forms of the source
      ([for_in] over a list of keys, [for_loop] for
      [for (j = 0; cond; j++)] with fuel) and the recursion over the
      elements they are compared with ([for_each]), the equivalence [≡]
      of computations with its [Proper] instance and the monad laws, the
      rules for what a computation keeps true of the world
      ([preserves]), the hint and rewrite databases [js], the tactics
      [comp_step], [comp_steps], [world_simpl] and [preserves_steps],
      and list lemmas the components share.
    - [JsValue]: the JavaScript values a form can hold ([JsVal]) and the
      language primitives the source applies to them: truthiness
      ([truthy]), the [length] property ([js_length]) and its comparisons
      ([gt_zero], [lt_length]), [instanceof Array], indexing
      ([js_index]), strict equality with a string ([strict_eq_str]);
      plain objects as the list of their properties in enumeration
      order ([Obj], [JsObject], [obj_keys], [obj_lookup], [obj_get],
      [obj_set]) with the invariant [wf_obj] (no key twice) and the
      lemmas on assignment the components use.
    - [Panel]: the records [_getTabPanels] builds: the store
      configuration of lines 102-122 ([filterCSWStore]) and the panel
      descriptor of lines 134-139 ([tab_panel]).
    - [Dialog]: the configuration of the dialog: the literal of lines
      15-58 ([dialog_config]) with the Search button ([search_button]),
      whose handler is the constructor [SearchHandler] of [Closure], and
      [Ext.apply] ([Ext_apply], [apply_props]), with the lemmas on it
      the constructor's theorems use.
    - [World]: what the code reads and writes outside its locals: the
      implicit globals and the trace of calls on collaborators
      ([World], [Event]), the collaborators it reads ([Host]: the form's
      [isValid] and [getValues], [Ext.getCmp]), and
      [Ext.getCmp(id).getChecked()] with its [TypeError] ([getChecked]).
    - [Fixtures]: the concrete forms and registries of the spec's
      scenarios, to which the theorems are applied.
    - [Denormalise]: [denormaliseKvp] with its guard ([keep_entry]) and
      loop body ([denormalise_step]); the reference [kept]; theorems: it
      never throws, equals the filter, is sound and complete for the
      guard, keeps the arrays parallel and ordered, and leaves the
      global [key] assigned.
    - [TabPanels]: [_getTabPanels] with the title loop ([title_loop],
      defined with Equations by well-founded recursion on the boxes
      left, and [resolve_title]); the reference [panel_of]; theorems:
      first match wins, fallback on a miss, the returned descriptor with
      its constants, the [TypeError] when the registry
      group is missing, the service pair at the end of the arrays, and
      independence from the value stored under [cswServiceId].
    - [Handler]: the handler, which takes [this._getTabPanels] as a
      parameter of type [Method]; the interface [PanelBuilder] (a class
      with the two laws the loops rely on: the method makes no call on a
      collaborator and does not assign [additionalParamKey]), which
      [_getTabPanels] implements; [CSWFilterWindow_handler] is the
      handler with the method of the class; theorems: the four calls in
      order with one panel per selected id, nothing on an invalid form,
      the empty selection, the exception that leaves the dialog open,
      all calls or none for every method, termination of the counting
      loop, the in-place coercion, the globals left behind.
    - [Spec]: sections 3 and 4 of the repository's spec as pure
      functions ([denormalize], [buildTasks]), taken from the spec's
      text and not from the code.
    - [Refinement]: the embedding of the spec's forms into the model and
      the theorem that the handler implements [buildTasks].
    - [Constructor]: the [constructor], the call a click makes on a
      button's handler ([fireHandler], [call_closure]) and the lookup of
      [this._getTabPanels] on the receiver ([method_getTabPanels]);
      theorems: the three calls of the constructor and the object the
      parent receives, the call without a configuration object, that
      the one button of the dialog runs the handler with the method of
      the class, and creation followed by a click as one run.
    - [Lifecycle]: the constructor and the handler as a transition
      system ([step], [reachable]; as a function, [do_action] and
      [run]): a dialog is created once and takes clicks until a run of
      the handler closes it; the invariant [dialog_inv] on the trace in
      each phase, proved for every reachable state by induction on the
      steps; theorems: the invariant, that the event fires at most once
      whatever the clicks and the close is last, and that a valid press
      closes the dialog.

    ** How state and operations correspond to the code

    A JavaScript function that only computes is a Rocq function.  A
    function that assigns variables visible outside it, calls a
    collaborator or may throw is a computation
    [Comp W E A = W -> result E A * W]: it takes the world, returns a
    value or a thrown error, and the world after it.  The world survives
    a throw, so a theorem can say what had happened before an exception.
    Each definition keeps the name of the function, variable or property
    it translates; a loop is the loop combinator applied to a definition
    of its body.  Arrays and objects are passed by value: the source
    never mutates an array after sharing it, and the one in-place update
    of an object (the coercion of [cswServiceId], line 37) is threaded
    through the loop state of the handler; the constructor's update of
    the caller's object is the object it returns.  Calls on
    collaborators ([addEvents], [new CSWFilterFormPanel], [callParent],
    [fireEvent], [new CSWSelectionWindow], [show], [close]) are appended
    to a trace; the collaborators themselves are not modelled.  A
    function literal stored in an object is a constructor of [Closure],
    and [call_closure] gives its body.  The store [_getTabPanels] creates
    with [Ext.create] (line 102) is the record of its configuration and
    not a call in the trace: it is created unloaded and without an id,
    so nothing outside the returned panel sees it; it exists, though,
    before the registry lookup of line 124 can throw.

    What is assumed of the collaborators: [button.findParentByType] and
    [parent.getComponent(0)] return the dialog and its form; a checked
    box has a string [inputValue] and a string [boxLabel]; the form's
    values are undefined, null, booleans, integers, strings or arrays of
    such, in an object without inherited enumerable properties, given
    as the list of its properties in the order [for-in] visits them.  A
    new property is enumerated last, which is the order of JavaScript
    for keys that are not array indices; the source assigns only a key
    that exists, and the constructor adds the names of its literal.
    Every call on a collaborator returns normally: that the handler
    makes all its calls or none ([Handler]) is relative to that.  Two
    library routines are modelled as Ext JS documents them:
    [Ext.apply(object, config)] assigns every own property of [config]
    to [object] in enumeration order and does nothing when [object] is
    undefined or null; a click on a button calls
    [handler.call(scope || button, button)]; both, and the buttons a
    window creates from its configuration, are written from the
    library's documentation, not from lines of the source.  The
    argument of the
    constructor is an object or absent.  In [Lifecycle], a window that
    was closed takes no click (Ext JS destroys it), and an exception in
    the handler leaves the dialog open.

    ** Bounds and fuel

    [for_loop] takes fuel because its condition is re-evaluated on the
    current state at each turn, as in the source, and nothing bounds it
    in general.  The handler passes one unit per evaluation of the
    condition of line 39: the length of the selection plus one, so that
    the loop leaves by its condition, as the source does;
    [Handler.inner_loop_terminates] proves that any fuel of at least
    the length gives the same result and that the result is the
    recursion over the elements.  [title_loop] takes no fuel: it is
    defined by well-founded recursion on the number of boxes from [i]
    on, so a body that did not move on to [i + 1] would not be a
    definition.  Numbers are integers ([Z]): the source only tests them
    for truthiness, and NaN and fractions are left out.  The length of a
    string is counted in characters of Rocq's [string]; the source only
    compares it with zero, which does not depend on the encoding.  The
    development states no axiom; the equations Equations derives for
    [title_loop] use function extensionality from the Standard Library.

    ** Not modelled, and the plan

    Every function of the source file is modelled.  Left out are the
    class declaration itself ([Ext.define], [extend], lines 2-3), what
    the parent constructor does with the configuration, the rendering,
    and a method that would change the object or the array it is passed
    ([Method] takes them by value; [_getTabPanels] changes neither).  Planned next: a heap of arrays shared by reference, to
    state that the panels of one submission share the array values of
    the form; and the request a store sends when the results view loads
    a page.  The Ext JS classes themselves ([Ext.data.Store],
    [Ext.window.Window], the form panel, the selection window) are
    library code and stay outside. *)

From stdpp Require Import strings.
From stdpp Require Import base option list.

Declare Scope js_scope.
Delimit Scope js_scope with js.

(** ** Results and computations *)

(** The outcome of evaluating an expression that may throw. *)
Inductive result (E A : Type) : Type :=
| Ok (a : A)
| Throw (e : E).
Arguments Ok {E A} a.
Arguments Throw {E A} e.

Definition is_ok {E A} (r : result E A) : bool :=
  match r with Ok _ => true | Throw _ => false end.

Definition result_bind {E A B} (r : result E A) (k : A -> result E B) : result E B :=
  match r with Ok a => k a | Throw e => Throw e end.

(** A computation over a world [W] that may throw an [E]. *)
Definition Comp (W E A : Type) : Type := W -> result E A * W.

Definition ret {W E A} (a : A) : Comp W E A := fun w => (Ok a, w).

Definition bind {W E A B} (m : Comp W E A) (k : A -> Comp W E B) : Comp W E B :=
  fun w => match m w with
           | (Ok a, w') => k a w'
           | (Throw e, w') => (Throw e, w')
           end.

Definition throw {W E A} (e : E) : Comp W E A := fun w => (Throw e, w).
Definition get {W E} : Comp W E W := fun w => (Ok w, w).
Definition modify {W E} (f : W -> W) : Comp W E unit := fun w => (Ok tt, f w).

(** An expression evaluated for its value inside a computation. *)
Definition lift {W E A} (r : result E A) : Comp W E A := fun w => (r, w).

Notation "x <- c ;; k" := (bind c (fun x => k))
  (at level 20, c at level 99, k at level 200, right associativity) : js_scope.
Notation "' p <- c ;; k" := (bind c (fun x => match x with p => k end))
  (at level 20, p pattern, c at level 99, k at level 200, right associativity) : js_scope.
Notation "c ;; k" := (bind c (fun _ => k))
  (at level 100, k at level 200, right associativity) : js_scope.

Open Scope js_scope.

(** A value with the equation that says where it came from: matching on
    [inspect e] keeps [e = pattern] in the branch, which a definition by
    well-founded recursion needs to show that its recursive call
    decreases the measure. *)
Definition inspect {A} (a : A) : {b | a = b} := exist _ a eq_refl.

(** ** Loops *)

(** [for (k in obj) body]: the body runs once per key, in order, on the
    loop state. *)
Fixpoint for_in {W E St} (keys : list string) (body : string -> St -> Comp W E St)
    (s : St) : Comp W E St :=
  match keys with
  | [] => ret s
  | k :: ks => s' <- body k s ;; for_in ks body s'
  end.

(** [for (j = j0; cond; j++) body]: the condition is evaluated on the
    current state before each turn. *)
Fixpoint for_loop {W E St} (fuel : nat) (cond : nat -> St -> Comp W E bool)
    (body : nat -> St -> Comp W E St) (j : nat) (s : St) : Comp W E St :=
  match fuel with
  | 0 => ret s
  | S fuel' =>
      c <- cond j s ;;
      if c then s' <- body j s ;; for_loop fuel' cond body (S j) s'
      else ret s
  end.

(** ** Equivalence of computations *)

#[export] Instance comp_equiv {W E A} : Equiv (Comp W E A) :=
  fun m1 m2 => forall w, m1 w = m2 w.

#[export] Instance comp_equivalence {W E A} : Equivalence (≡@{Comp W E A}).
Proof.
  split; [by intros ?? | by intros ?? H w | intros ??? H1 H2 w; by rewrite H1].
Qed.

#[export] Instance bind_proper {W E A B} :
  Proper ((≡) ==> pointwise_relation A (≡) ==> (≡)) (@bind W E A B).
Proof.
  intros m1 m2 Hm k1 k2 Hk w. unfold bind. rewrite Hm.
  destruct (m2 w) as [[a|e] w']; [apply Hk | done].
Qed.

(** A computation that returns hands its value and world to the rest. *)
Lemma bind_ok' {W E A B} (m : Comp W E A) (k : A -> Comp W E B) w a w' :
  m w = (Ok a, w') -> bind m k w = k a w'.
Proof. intros H. unfold bind. by rewrite H. Qed.

(** ** Tactics and hints *)

Create HintDb js discriminated.
Create Rewrite HintDb js.

(** [comp_step] runs the first computation of a bind in the goal with a
    lemma of the database [js] that says what it returns; [comp_steps]
    runs as many as it can.  The lemmas are added where the computations
    are defined. *)
Ltac comp_step :=
  match goal with
  | |- context [bind ?m ?k ?w] =>
      let H := fresh in
      eassert (m w = (Ok _, _)) as H by (eauto with js nocore);
      rewrite (bind_ok' m k w _ _ H); clear H
  end.
Ltac comp_steps := repeat comp_step.

(** [world_simpl] projects the results that are pairs and normalises the
    updates of the world with the rewrite database [js]. *)
Ltac world_simpl := cbn [fst snd]; autorewrite with js.

(** ** Laws *)

Section Laws.
Context {W E : Type}.
Implicit Types w : W.

Lemma bind_ret_l {A B} (a : A) (k : A -> Comp W E B) : (x <- ret a ;; k x) ≡ k a.
Proof. by intros w. Qed.

Lemma bind_ret_r {A} (m : Comp W E A) : (x <- m ;; ret x) ≡ m.
Proof. intros w. unfold bind, ret. by destruct (m w) as [[a|e] w']. Qed.

Lemma bind_assoc {A B C} (m : Comp W E A) (k : A -> Comp W E B) (h : B -> Comp W E C) :
  (y <- (x <- m ;; k x) ;; h y) ≡ (x <- m ;; y <- k x ;; h y).
Proof. intros w. unfold bind. by destruct (m w) as [[a|e] w']. Qed.

Lemma bind_throw {A B} (e : E) (k : A -> Comp W E B) : (x <- throw e ;; k x) ≡ throw e.
Proof. by intros w. Qed.

Lemma bind_ok {A B} (m : Comp W E A) (k : A -> Comp W E B) w a w' :
  m w = (Ok a, w') -> (x <- m ;; k x) w = k a w'.
Proof. apply bind_ok'. Qed.

Lemma bind_fail {A B} (m : Comp W E A) (k : A -> Comp W E B) w e w' :
  m w = (Throw e, w') -> (x <- m ;; k x) w = (Throw e, w').
Proof. intros H. unfold bind. by rewrite H. Qed.

(** A bind that returns normally ran both halves normally. *)
Lemma bind_ok_inv {A B} (m : Comp W E A) (k : A -> Comp W E B) w b w2 :
  (x <- m ;; k x) w = (Ok b, w2) ->
  exists a w1, m w = (Ok a, w1) /\ k a w1 = (Ok b, w2).
Proof.
  unfold bind. destruct (m w) as [[a|e] w1]; [eauto | done].
Qed.

Lemma for_in_app {St} (ks1 ks2 : list string) (body : string -> St -> Comp W E St) s :
  for_in (ks1 ++ ks2) body s ≡ (s' <- for_in ks1 body s ;; for_in ks2 body s').
Proof.
  revert s. induction ks1 as [|k ks1 IH]; intros s; simpl.
  - by rewrite bind_ret_l.
  - rewrite bind_assoc. f_equiv. intros s'. apply IH.
Qed.

(** A loop whose body never throws is a pair of folds: one over the loop
    state, one over the world. *)
Lemma for_in_pure {St} (ks : list string) (body : string -> St -> Comp W E St)
    (f : St -> string -> St) (g : W -> string -> W) s w :
  (forall k s w, body k s w = (Ok (f s k), g w k)) ->
  for_in ks body s w = (Ok (foldl f s ks), foldl g w ks).
Proof.
  intros Hbody. revert s w. induction ks as [|k ks IH]; intros s w; [done|].
  simpl. erewrite bind_ok by apply Hbody. apply IH.
Qed.

(** The loop over [j .. j + length xs) when the condition is the bound
    test and holds exactly below [j + length xs]: the body runs once per
    element. *)
Fixpoint for_each {A St} (body : nat -> A -> St -> Comp W E St) (j : nat)
    (xs : list A) (s : St) : Comp W E St :=
  match xs with
  | [] => ret s
  | x :: xs' => s' <- body j x s ;; for_each body (S j) xs' s'
  end.

Lemma for_each_app {A St} (body : nat -> A -> St -> Comp W E St) j (xs ys : list A) s :
  for_each body j (xs ++ ys) s
  ≡ (s' <- for_each body j xs s ;; for_each body (j + length xs) ys s').
Proof.
  revert j s. induction xs as [|x xs IH]; intros j s; simpl.
  - by rewrite bind_ret_l, Nat.add_0_r.
  - rewrite bind_assoc. f_equiv. intros s'. rewrite IH.
    by replace (S j + length xs) with (j + S (length xs)) by lia.
Qed.

(** A counting loop over an array that its body leaves alone is the
    recursion over the elements.  [I] is what the turns keep true of the
    loop state and the world; under it the condition is the bound test
    and does not change the world. *)
Lemma for_loop_for_each {A St} (I : St -> W -> Prop) (xs : list A)
    (cond : nat -> St -> Comp W E bool) (body : nat -> St -> Comp W E St)
    (body' : nat -> A -> St -> Comp W E St) fuel j s w :
  (forall j s w, I s w -> cond j s w = (Ok (bool_decide (j < length xs)), w)) ->
  (forall j x s w, I s w -> xs !! j = Some x -> body j s w = body' j x s w) ->
  (forall j x s w s' w', I s w -> xs !! j = Some x -> body' j x s w = (Ok s', w') -> I s' w') ->
  I s w -> length xs - j <= fuel ->
  for_loop fuel cond body j s w = for_each body' j (drop j xs) s w.
Proof.
  intros Hcond Hbody Hinv. revert j s w.
  induction fuel as [|fuel IH]; intros j s w HI Hfuel.
  - by rewrite drop_ge by lia.
  - simpl. erewrite bind_ok by (by apply Hcond). case_bool_decide as Hj.
    + destruct (lookup_lt_is_Some_2 xs j Hj) as [x Hx].
      rewrite (drop_S _ _ _ Hx). simpl. unfold bind.
      rewrite (Hbody j x) by done.
      destruct (body' j x s w) as [[s'|e] w'] eqn:Hrun; [|done].
      apply IH; [by eapply Hinv | lia].
    + by rewrite drop_ge by lia.
Qed.

(** ** What a computation keeps true of the world *)

(** [m] keeps [I]: the world after [m], returned or thrown, satisfies
    [I] when the world before did. *)
Definition preserves {A} (I : W -> Prop) (m : Comp W E A) : Prop :=
  forall w, I w -> I (m w).2.

Lemma preserves_ret {A} I (a : A) : preserves I (ret a).
Proof. by intros w. Qed.

Lemma preserves_throw {A} I e : preserves I (@throw W E A e).
Proof. by intros w. Qed.

Lemma preserves_lift {A} I (r : result E A) : preserves I (lift r).
Proof. by intros w. Qed.

Lemma preserves_get I : preserves I (@get W E).
Proof. by intros w. Qed.

Lemma preserves_modify I (f : W -> W) : (forall w, I w -> I (f w)) -> preserves I (@modify W E f).
Proof. intros Hf w. apply Hf. Qed.

Lemma preserves_bind {A B} I (m : Comp W E A) (k : A -> Comp W E B) :
  preserves I m -> (forall a, preserves I (k a)) -> preserves I (x <- m ;; k x).
Proof.
  intros Hm Hk w HI. unfold bind. specialize (Hm w HI).
  destruct (m w) as [[a|e] w']; [by apply Hk | done].
Qed.

Lemma preserves_for_in {St} I ks (body : string -> St -> Comp W E St) s :
  (forall k s, preserves I (body k s)) -> preserves I (for_in ks body s).
Proof.
  intros Hbody. revert s. induction ks as [|k ks IH]; intros s; simpl.
  - apply preserves_ret.
  - apply preserves_bind; [apply Hbody | apply IH].
Qed.

Lemma preserves_for_loop {St} I fuel (cond : nat -> St -> Comp W E bool)
    (body : nat -> St -> Comp W E St) j s :
  (forall j s, preserves I (cond j s)) -> (forall j s, preserves I (body j s)) ->
  preserves I (for_loop fuel cond body j s).
Proof.
  intros Hcond Hbody. revert j s. induction fuel as [|fuel IH]; intros j s; simpl.
  - apply preserves_ret.
  - apply preserves_bind; [apply Hcond|]. intros [|]; [|apply preserves_ret].
    apply preserves_bind; [apply Hbody | intros; apply IH].
Qed.

Lemma preserves_if {A} I (b : bool) (m1 m2 : Comp W E A) :
  preserves I m1 -> preserves I m2 -> preserves I (if b then m1 else m2).
Proof. by destruct b. Qed.

End Laws.

#[export] Hint Resolve preserves_ret preserves_throw preserves_lift preserves_get : js.

(** [preserves_steps] takes a goal [preserves I m] apart along the
    binds, branches and loops of [m] and closes the leaves with the
    database [js]. *)
Ltac preserves_steps :=
  repeat first
    [ solve [auto with js]
    | apply preserves_bind; [|intros ?]
    | apply preserves_if
    | apply preserves_for_in; intros ??
    | apply preserves_for_loop; intros ?? ].

#[export] Hint Rewrite @bind_ret_l @bind_ret_r @bind_assoc @bind_throw : js.

(** ** Lists *)

Section Lists.
Context {A B : Type}.
Implicit Types (l : list A) (k : list B).

(** Two arrays that grow by one element each stay parallel. *)
Lemma length_snoc2 l k (x : A) (y : B) :
  length l = length k -> length (l ++ [x]) = length (k ++ [y]).
Proof. rewrite !length_app. simpl. lia. Qed.

Lemma lookup_snoc_length l (x : A) : (l ++ [x]) !! length l = Some x.
Proof. by rewrite lookup_app_r, Nat.sub_diag. Qed.

End Lists.

(** A string that occurs once, at the end. *)
Lemma count_snoc_fresh (k : string) (l : list string) :
  k ∉ l -> length (List.filter (String.eqb k) (l ++ [k])) = 1.
Proof.
  induction l as [|x l IH]; simpl.
  - by rewrite String.eqb_refl.
  - intros [Hne Hnin]%not_elem_of_cons.
    rewrite (proj2 (String.eqb_neq k x)) by done. by apply IH.
Qed.

#[export] Hint Resolve length_snoc2 : js.
#[export] Hint Rewrite @lookup_snoc_length : js.
