(* ===== verification/JsValue.v ===== *)
(** * JavaScript values and plain objects

    The values a submitted form can hold and the language primitives
    [CSWFilterWindow.js] applies to them: the truthiness test of
    [kvpObj[key] && ...], the [length] property and its comparison with
    zero, [instanceof Array], indexing an array, strict equality with a
    string.  A plain object is the ordered list of its own properties,
    in the order [for-in] enumerates them. *)

From stdpp Require Import strings.
From stdpp Require Import base option list.
From S2P Require Import Prelude.

(** ** Values *)

(** The errors the modelled expressions can throw. *)
Inductive JsError : Type :=
| TypeError        (* a property of undefined or null, or a call of a non-function *)
| ReferenceError.  (* a read of an undeclared variable *)

Unset Elimination Schemes.
Inductive JsVal : Type :=
| JUndefined
| JNull
| JBool (b : bool)
| JNum (n : Z)
| JStr (s : string)
| JArr (elems : list JsVal).
Set Elimination Schemes.

(** Induction with the hypothesis on every element of an array. *)
Definition JsVal_ind (P : JsVal -> Prop)
    (Hundef : P JUndefined) (Hnull : P JNull)
    (Hbool : forall b, P (JBool b)) (Hnum : forall n, P (JNum n))
    (Hstr : forall s, P (JStr s))
    (Harr : forall l, Forall P l -> P (JArr l)) : forall v, P v :=
  fix go (v : JsVal) : P v :=
    match v with
    | JUndefined => Hundef
    | JNull => Hnull
    | JBool b => Hbool b
    | JNum n => Hnum n
    | JStr s => Hstr s
    | JArr l =>
        Harr l ((fix all (l : list JsVal) : Forall P l :=
                   match l with
                   | [] => List.Forall_nil P
                   | x :: l0 => List.Forall_cons P x l0 (go x) (all l0)
                   end) l)
    end.

#[export] Instance JsError_eq_dec : EqDecision JsError.
Proof. solve_decision. Defined.

#[export] Instance JsVal_eq_dec : EqDecision JsVal.
Proof.
  refine (fix go (x y : JsVal) {struct x} : Decision (x = y) :=
    match x, y with
    | JUndefined, JUndefined | JNull, JNull => left _
    | JBool a, JBool b => cast_if (decide (a = b))
    | JNum a, JNum b => cast_if (decide (a = b))
    | JStr a, JStr b => cast_if (decide (a = b))
    | JArr a, JArr b => cast_if (@list_eq_dec _ go a b)
    | _, _ => right _
    end); abstract congruence.
Defined.

(** [ToBoolean]: what [if (v)] and [v && ...] test. *)
Definition truthy (v : JsVal) : bool :=
  match v with
  | JUndefined | JNull => false
  | JBool b => b
  | JNum n => negb (n =? 0)%Z
  | JStr s => negb (String.eqb s "")
  | JArr _ => true
  end.

(** [v.length]: a [TypeError] on undefined and null, the length of a
    string or an array, and undefined ([None]) on a boolean or a number. *)
Definition js_length (v : JsVal) : result JsError (option nat) :=
  match v with
  | JUndefined | JNull => Throw TypeError
  | JStr s => Ok (Some (String.length s))
  | JArr l => Ok (Some (length l))
  | JBool _ | JNum _ => Ok None
  end.

(** [len > 0] for the value of a [length] property: undefined converts
    to NaN, and every comparison with NaN is false. *)
Definition gt_zero (len : option nat) : bool :=
  match len with
  | Some n => 0 <? n
  | None => false
  end.

(** [j < len] for the value of a [length] property. *)
Definition lt_length (j : nat) (len : option nat) : bool :=
  match len with
  | Some n => j <? n
  | None => false
  end.

(** [v instanceof Array]. *)
Definition instanceof_Array (v : JsVal) : bool :=
  match v with
  | JArr _ => true
  | _ => false
  end.

(** [v[j]] for a number [j]: the element of an array or the character of
    a string, undefined past the end and on booleans and numbers. *)
Definition js_index (v : JsVal) (j : nat) : result JsError JsVal :=
  match v with
  | JUndefined | JNull => Throw TypeError
  | JArr l => Ok (default JUndefined (l !! j))
  | JStr s =>
      Ok (match String.get j s with
          | Some c => JStr (String c EmptyString)
          | None => JUndefined
          end)
  | JBool _ | JNum _ => Ok JUndefined
  end.

(** [s === v] for a string [s]: no conversion, so only the same string
    is equal. *)
Definition strict_eq_str (s : string) (v : JsVal) : bool :=
  match v with
  | JStr s' => String.eqb s s'
  | _ => false
  end.

(** ** Plain objects *)

(** The own enumerable properties of an object, in enumeration order,
    with values of type [V]. *)
Definition Obj (V : Type) : Type := list (string * V).

(** The objects of form values. *)
Definition JsObject : Type := Obj JsVal.

(** The keys [for (k in o)] visits, in the order it visits them: an
    object is given as the list of its properties in that order. *)
Definition obj_keys {V} (o : Obj V) : list string := o.*1.

(** The own property [k] of [o], if any. *)
Fixpoint obj_lookup {V} (o : Obj V) (k : string) : option V :=
  match o with
  | [] => None
  | (k', v) :: o' => if String.eqb k k' then Some v else obj_lookup o' k
  end.

(** [o[k]]: undefined when [o] has no property [k]. *)
Definition obj_get (o : JsObject) (k : string) : JsVal :=
  default JUndefined (obj_lookup o k).

(** [o[k] = v]: a property that exists keeps its place in the enumeration
    order, a new one goes last.  That is the order of JavaScript for
    keys that are not array indices; a new key such as ["0"] would be
    enumerated before the names.  The source assigns a key that exists
    (line 37), and the keys the constructor adds are the names of the
    literal of lines 16-22. *)
Fixpoint obj_set {V} (o : Obj V) (k : string) (v : V) : Obj V :=
  match o with
  | [] => [(k, v)]
  | (k', v') :: o' =>
      if String.eqb k k' then (k, v) :: o' else (k', v') :: obj_set o' k v
  end.

(** An object has each property once. *)
Definition wf_obj {V} (o : Obj V) : Prop := NoDup (obj_keys o).

#[export] Instance wf_obj_dec {V} (o : Obj V) : Decision (wf_obj o).
Proof. unfold wf_obj. apply _. Defined.

(** ** Lemmas on values *)

Lemma truthy_str s : truthy (JStr s) = true <-> s <> "".
Proof.
  simpl. rewrite negb_true_iff. apply String.eqb_neq.
Qed.

(** The guard [v && v.length] never reads a property of undefined or
    null. *)
Lemma truthy_js_length_ok v : truthy v = true -> is_ok (js_length v) = true.
Proof. by destruct v. Qed.

Lemma strict_eq_str_spec s v : strict_eq_str s v = true <-> v = JStr s.
Proof.
  destruct v; simpl; try (split; congruence).
  rewrite String.eqb_eq. split; congruence.
Qed.

Lemma instanceof_Array_spec v : instanceof_Array v = true <-> exists l, v = JArr l.
Proof. destruct v; simpl; split; try done; eauto; by intros [? ?]. Qed.

Lemma js_index_arr l j x : l !! j = Some x -> js_index (JArr l) j = Ok x.
Proof. simpl. by intros ->. Qed.

(** ** Lemmas on objects *)

Section Objects.
Context {V : Type}.
Implicit Types (o : Obj V) (k : string) (v : V).

Lemma obj_lookup_cons_eq o k v : obj_lookup ((k, v) :: o) k = Some v.
Proof. simpl. by rewrite String.eqb_refl. Qed.

Lemma obj_lookup_cons_ne o k k' v : k <> k' -> obj_lookup ((k', v) :: o) k = obj_lookup o k.
Proof. intros Hne. simpl. by rewrite (proj2 (String.eqb_neq _ _) Hne). Qed.

Lemma obj_lookup_absent o k : k ∉ obj_keys o -> obj_lookup o k = None.
Proof.
  induction o as [|[k' v'] o IH]; [done|].
  intros [Hne Hnin]%not_elem_of_cons.
  rewrite obj_lookup_cons_ne by done. by apply IH.
Qed.

Lemma obj_lookup_present o k : k ∈ obj_keys o -> is_Some (obj_lookup o k).
Proof.
  induction o as [|[k' v'] o IH]; [by intros ?%elem_of_nil|].
  destruct (decide (k = k')) as [->|Hne].
  - rewrite obj_lookup_cons_eq. eauto.
  - rewrite obj_lookup_cons_ne by done. intros [?|Hin]%elem_of_cons; [done|]. by apply IH.
Qed.

(** In an object with each key once, the property [k] is the value
    stored with [k]. *)
Lemma obj_lookup_elem_of o k v : wf_obj o -> (k, v) ∈ o -> obj_lookup o k = Some v.
Proof.
  unfold wf_obj, obj_keys. induction o as [|[k' v'] o IH].
  { intros _ Hin. by apply elem_of_nil in Hin. }
  intros [Hnin Hnd]%NoDup_cons [Heq|Hin]%elem_of_cons.
  - injection Heq as -> ->. apply obj_lookup_cons_eq.
  - rewrite obj_lookup_cons_ne; [by apply IH|].
    intros ->. apply Hnin. apply list_elem_of_fmap. by exists (k', v).
Qed.

Lemma obj_lookup_set_eq o k v : obj_lookup (obj_set o k v) k = Some v.
Proof.
  induction o as [|[k' v'] o IH]; simpl.
  - by rewrite String.eqb_refl.
  - destruct (String.eqb_spec k k') as [->|Hne]; simpl.
    + by rewrite String.eqb_refl.
    + by rewrite (proj2 (String.eqb_neq _ _) Hne).
Qed.

Lemma obj_lookup_set_ne o k k' v : k <> k' -> obj_lookup (obj_set o k v) k' = obj_lookup o k'.
Proof.
  intros Hne. induction o as [|[k1 v1] o IH]; simpl.
  - by rewrite (proj2 (String.eqb_neq k' k)).
  - destruct (String.eqb_spec k k1) as [->|Hne1]; simpl.
    + by rewrite (proj2 (String.eqb_neq k' k1)).
    + by rewrite IH.
Qed.

(** Assigning a property that exists does not move it: [for-in] visits
    the same keys in the same order afterwards. *)
Lemma obj_keys_set_present o k v : k ∈ obj_keys o -> obj_keys (obj_set o k v) = obj_keys o.
Proof.
  unfold obj_keys. induction o as [|[k1 v1] o IH].
  { intros Hin. by apply elem_of_nil in Hin. }
  simpl. destruct (String.eqb_spec k k1) as [->|Hne]; [done|].
  intros [?|Hin]%elem_of_cons; [done|]. csimpl. by rewrite IH.
Qed.

Lemma obj_keys_set_absent o k v : k ∉ obj_keys o -> obj_keys (obj_set o k v) = obj_keys o ++ [k].
Proof.
  unfold obj_keys. induction o as [|[k1 v1] o IH]; [done|].
  simpl. intros [Hne Hnin]%not_elem_of_cons.
  rewrite (proj2 (String.eqb_neq _ _) Hne). csimpl. by rewrite IH.
Qed.

Lemma wf_obj_set o k v : wf_obj o -> wf_obj (obj_set o k v).
Proof.
  unfold wf_obj. intros Hnd. destruct (decide (k ∈ obj_keys o)) as [Hin|Hnin].
  - by rewrite obj_keys_set_present.
  - rewrite obj_keys_set_absent by done. apply NoDup_app. split_and!; [done| |apply NoDup_singleton].
    intros x Hx ->%list_elem_of_singleton. done.
Qed.

End Objects.

(** The same for [o[k]] on objects of form values. *)
Section FormObjects.
Implicit Types (o : JsObject) (k : string) (v : JsVal).

Lemma obj_get_cons_eq o k v : obj_get ((k, v) :: o) k = v.
Proof. unfold obj_get. by rewrite obj_lookup_cons_eq. Qed.

Lemma obj_get_cons_ne o k k' v : k <> k' -> obj_get ((k', v) :: o) k = obj_get o k.
Proof. intros Hne. unfold obj_get. by rewrite obj_lookup_cons_ne. Qed.

Lemma obj_get_absent o k : k ∉ obj_keys o -> obj_get o k = JUndefined.
Proof. intros Hnin. unfold obj_get. by rewrite obj_lookup_absent. Qed.

Lemma obj_get_elem_of o k v : wf_obj o -> (k, v) ∈ o -> obj_get o k = v.
Proof. intros Hwf Hin. unfold obj_get. by rewrite (obj_lookup_elem_of o k v). Qed.

Lemma obj_get_set_eq o k v : obj_get (obj_set o k v) k = v.
Proof. unfold obj_get. by rewrite obj_lookup_set_eq. Qed.

Lemma obj_get_set_ne o k k' v : k <> k' -> obj_get (obj_set o k v) k' = obj_get o k'.
Proof. intros Hne. unfold obj_get. by rewrite obj_lookup_set_ne. Qed.

End FormObjects.

#[export] Hint Rewrite obj_get_cons_eq obj_get_set_eq @obj_lookup_cons_eq @obj_lookup_set_eq : js.
#[export] Hint Rewrite obj_get_cons_ne obj_get_set_ne @obj_lookup_cons_ne @obj_lookup_set_ne using done : js.
#[export] Hint Resolve wf_obj_set truthy_js_length_ok : js.
