(* ===== verification/Panel.v ===== *)
(** * The records [_getTabPanels] builds

    The configuration of the [Ext.data.Store] created at lines 102-122 of
    [CSWFilterWindow.js] and the panel descriptor returned at lines
    134-141, with the constants the source writes into them.  A store is
    its configuration: the source creates it and never calls it. *)

From stdpp Require Import strings.
From stdpp Require Import base option list.
From S2P Require Import Prelude JsValue.

(** [reader : { type, root, successProperty, totalProperty }]. *)
Record Reader : Type := {
  reader_type : string;
  root : string;
  successProperty : string;
  totalProperty : string;
}.

(** [extraParams : { key : keys, value : values }]: the two parallel
    arrays sent with every request of the store. *)
Record ExtraParams : Type := {
  key : list string;
  value : list JsVal;
}.

(** [proxy : { type, url, reader, extraParams }]. *)
Record Proxy : Type := {
  proxy_type : string;
  url : string;
  reader : Reader;
  extraParams : ExtraParams;
}.

(** The configuration passed to [Ext.create('Ext.data.Store', ...)]. *)
Record Store : Type := {
  model : string;
  pageSize : nat;
  autoLoad : bool;
  proxy : Proxy;
}.

(** The object [_getTabPanels] returns. *)
Record Panel : Type := {
  title : string;
  xtype : string;
  layout : string;
  store : Store;
}.

#[export] Instance Reader_eq_dec : EqDecision Reader.
Proof. solve_decision. Defined.
#[export] Instance ExtraParams_eq_dec : EqDecision ExtraParams.
Proof. solve_decision. Defined.
#[export] Instance Proxy_eq_dec : EqDecision Proxy.
Proof. solve_decision. Defined.
#[export] Instance Store_eq_dec : EqDecision Store.
Proof. solve_decision. Defined.
#[export] Instance Panel_eq_dec : EqDecision Panel.
Proof. solve_decision. Defined.

(** The reader of lines 109-114. *)
Definition json_reader : Reader :=
  {| reader_type := "json"; root := "data";
     successProperty := "success"; totalProperty := "totalResults" |}.

(** [Ext.create('Ext.data.Store', {...})] of lines 102-122, for the arrays
    [keys] and [values]. *)
Definition filterCSWStore (keys : list string) (values : list JsVal) : Store :=
  {| model := "portal.csw.CSWRecord";
     pageSize := 35;
     autoLoad := false;
     proxy := {| proxy_type := "ajax";
                 url := "getFilteredCSWRecords.do";
                 reader := json_reader;
                 extraParams := {| key := keys; value := values |} |} |}.

(** The object literal of lines 134-139. *)
Definition tab_panel (t : string) (s : Store) : Panel :=
  {| title := t; xtype := "cswrecordpagingpanel"; layout := "fit"; store := s |}.

(** The request criteria of a panel: the arrays its store sends. *)
Definition panel_keys (p : Panel) : list string := key (extraParams (proxy (store p))).
Definition panel_values (p : Panel) : list JsVal := value (extraParams (proxy (store p))).

(** A panel whose two arrays are parallel. *)
Definition wf_panel (p : Panel) : Prop := length (panel_keys p) = length (panel_values p).

#[export] Instance wf_panel_dec p : Decision (wf_panel p).
Proof. unfold wf_panel. apply _. Defined.
