(* ===== verification/Dialog.v ===== *)
(** * The configuration of the dialog

    The object literal the constructor of [CSWFilterWindow.js] applies to
    its argument (lines 15-58): the title, the layout and the size of the
    window, the form panel as its only item and the Search button with
    its scope and its handler; and [Ext.apply], which copies the
    properties of that literal onto the caller's object.

    The handler is a function literal: the configuration holds it as the
    constructor [SearchHandler] of [Closure], and [Constructor] says what
    calling it does.  [Ext.apply] is library code, not part of the
    source file: [Ext_apply] and [apply_props] are written from the
    library's documentation (every own property of the second object is
    assigned to the first, in enumeration order, and nothing happens when
    the first is undefined or null).  The lemmas say what the
    constructor needs of it: the properties of the literal get the
    literal's values, the others keep theirs, and no key comes to occur
    twice. *)

From stdpp Require Import strings.
From stdpp Require Import base option list.
From S2P Require Import Prelude JsValue.

(** ** The data *)

(** What [this] can be when the handler of a button runs: the window,
    when the button's [scope] says so, or the button itself. *)
Inductive Receiver : Type :=
| TheWindow
| TheButton.

(** The function literals of the source: the handler of lines 27-56. *)
Inductive Closure : Type :=
| SearchHandler.

(** The form panel [new CSWFilterFormPanel({name : 'test'})] of lines
    9-11, known by the configuration it was created with. *)
Record FormPanelCfg : Type := {
  fp_name : string;
}.

(** The button of lines 22-57. *)
Record ButtonCfg : Type := {
  btn_xtype : string;
  btn_text : string;
  btn_scope : option Receiver;     (* scope : this; None when absent *)
  btn_iconCls : string;
  btn_handler : Closure;
}.

(** The values of the properties of a window configuration: values of
    the language, the list of items and the list of buttons. *)
Inductive CfgVal : Type :=
| CJs (v : JsVal)
| CItems (items : list FormPanelCfg)
| CButtons (buttons : list ButtonCfg).

(** A window configuration: the object [cfg]. *)
Definition Config : Type := Obj CfgVal.

#[export] Instance Receiver_eq_dec : EqDecision Receiver.
Proof. solve_decision. Defined.
#[export] Instance Closure_eq_dec : EqDecision Closure.
Proof. solve_decision. Defined.
#[export] Instance FormPanelCfg_eq_dec : EqDecision FormPanelCfg.
Proof. solve_decision. Defined.
#[export] Instance ButtonCfg_eq_dec : EqDecision ButtonCfg.
Proof. solve_decision. Defined.
#[export] Instance CfgVal_eq_dec : EqDecision CfgVal.
Proof. solve_decision. Defined.

(** ** The code *)

(** The Search button (lines 22-57); [this] is the window under
    construction. *)
Definition search_button : ButtonCfg :=
  {| btn_xtype := "button";
     btn_text := "Search";
     btn_scope := Some TheWindow;
     btn_iconCls := "add";
     btn_handler := SearchHandler |}.

(** The literal of lines 15-58. *)
Definition dialog_config (cswFilterFormPanel : FormPanelCfg) : Config :=
  [ ("title", CJs (JStr "Enter Parameters"));
    ("layout", CJs (JStr "fit"));
    ("modal", CJs (JBool true));
    ("width", CJs (JNum 500));
    ("height", CJs (JNum 500));
    ("items", CItems [cswFilterFormPanel]);
    ("buttons", CButtons [search_button]) ].

(** The loop of [Ext.apply]: [for (i in config) object[i] = config[i]]. *)
Definition apply_props {V} (object : Obj V) (config : Obj V) : Obj V :=
  foldl (fun o kv => obj_set o kv.1 kv.2) object config.

(** [Ext.apply(object, config)] for an object literal [config]: the
    properties are copied when [object] is an object, and [object] is
    returned as it is when it is undefined or null ([None]). *)
Definition Ext_apply {V} (object : option (Obj V)) (config : Obj V) : option (Obj V) :=
  match object with
  | Some o => Some (apply_props o config)
  | None => None
  end.

(** ** Lemmas *)

Section Apply.
Context {V : Type}.
Implicit Types (o c : Obj V) (k : string) (v : V).

Lemma apply_props_cons o k v c :
  apply_props o ((k, v) :: c) = apply_props (obj_set o k v) c.
Proof. done. Qed.

Lemma wf_apply_props o c : wf_obj o -> wf_obj (apply_props o c).
Proof.
  revert o. induction c as [|[k v] c IH]; intros o Hwf; [done|].
  rewrite apply_props_cons. by apply IH, wf_obj_set.
Qed.

(** A key the literal does not have keeps its value. *)
Lemma apply_props_lookup_other o c k :
  k ∉ obj_keys c -> obj_lookup (apply_props o c) k = obj_lookup o k.
Proof.
  revert o. induction c as [|[k' v'] c IH]; intros o Hnin; [done|].
  apply not_elem_of_cons in Hnin as [Hne Hnin].
  rewrite apply_props_cons, IH by done. by apply obj_lookup_set_ne.
Qed.

(** A key of the literal gets the literal's value. *)
Lemma apply_props_lookup o c k v :
  wf_obj c -> (k, v) ∈ c -> obj_lookup (apply_props o c) k = Some v.
Proof.
  revert o. induction c as [|[k' v'] c IH]; intros o Hwf Hin.
  { by apply elem_of_nil in Hin. }
  apply NoDup_cons in Hwf as [Hnin Hwf]. rewrite apply_props_cons.
  apply elem_of_cons in Hin as [Heq|Hin].
  - injection Heq as -> ->. rewrite apply_props_lookup_other by done.
    apply obj_lookup_set_eq.
  - by apply IH.
Qed.

End Apply.

Lemma wf_dialog_config p : wf_obj (dialog_config p).
Proof. apply (bool_decide_unpack _). by vm_compute. Qed.

#[export] Hint Resolve wf_dialog_config wf_apply_props : js.
