(* ===== verification/World.v ===== *)
(** * The world of the dialog

    What the code of [CSWFilterWindow.js] reads and writes outside its
    local variables: the two variables it assigns without declaring them
    ([additionalParamKey] at line 34, [key] at line 87), which are
    properties of the global object, the collaborators it reads (the
    form of the dialog, the component registry of [Ext.getCmp]) and the
    calls it makes on collaborators (by the handler and by the
    constructor), kept as a trace in call order. *)

From stdpp Require Import strings.
From stdpp Require Import base option list.
From S2P Require Import Prelude JsValue Panel Dialog.

(** A checked box of the registry group: what the title lookup reads. *)
Record Checkbox : Type := {
  inputValue : string;
  boxLabel : string;
}.

(** What [Ext.getCmp] can return: the checkbox group with the boxes
    [getChecked()] lists, or a component without that method. *)
Inductive Component : Type :=
| CheckboxGroup (checked : list Checkbox)
| OtherComponent.

(** The collaborators the code reads and never changes. *)
Record Host : Type := {
  isValid : bool;                          (* panel.getForm().isValid() *)
  getValues : JsObject;                    (* panel.getForm().getValues(false, false, false, false) *)
  getCmp : string -> option Component;     (* Ext.getCmp(id), None for undefined *)
}.

(** The configuration passed to [new CSWSelectionWindow]. *)
Record SelectionWindowCfg : Type := {
  sw_title : string;
  resultpanels : list Panel;
}.

(** A call on a collaborator. *)
Inductive Event : Type :=
| FireEvent (name : string) (panels : list Panel)   (* parent.fireEvent(name, panels) *)
| NewSelectionWindow (cfg : SelectionWindowCfg)     (* new CSWSelectionWindow(cfg) *)
| ShowSelectionWindow                               (* cswSelectionWindow.show() *)
| CloseWindow                                       (* parent.close() *)
| AddEvents (names : list string)                   (* this.addEvents(names) *)
| NewFilterFormPanel (cfg : FormPanelCfg)           (* new CSWFilterFormPanel(cfg) *)
| CallParent (cfg : option Config).                 (* this.callParent(arguments) *)

(** The implicit globals and the trace. [None] is a variable that was
    never assigned. *)
Record World : Type := {
  g_additionalParamKey : option string;
  g_key : option string;
  trace : list Event;
}.

#[export] Instance Checkbox_eq_dec : EqDecision Checkbox.
Proof. solve_decision. Defined.
#[export] Instance SelectionWindowCfg_eq_dec : EqDecision SelectionWindowCfg.
Proof. solve_decision. Defined.
#[export] Instance Event_eq_dec : EqDecision Event.
Proof. solve_decision. Defined.
#[export] Instance World_eq_dec : EqDecision World.
Proof. solve_decision. Defined.

(** The computations of the dialog. *)
Definition JS (A : Type) : Type := Comp World JsError A.

(** The world before any code of the dialog ran. *)
Definition initial_world : World :=
  {| g_additionalParamKey := None; g_key := None; trace := [] |}.

(** [additionalParamKey = k] (the assignment [for-in] makes at line 34). *)
Definition set_additionalParamKey (k : string) : JS unit :=
  modify (fun w => {| g_additionalParamKey := Some k; g_key := g_key w; trace := trace w |}).

(** [key = k] (the assignment [for-in] makes at line 87). *)
Definition set_key (k : string) : JS unit :=
  modify (fun w => {| g_additionalParamKey := g_additionalParamKey w; g_key := Some k; trace := trace w |}).

(** A read of [additionalParamKey]: a [ReferenceError] when it was never
    assigned. *)
Definition read_additionalParamKey : JS string :=
  w <- get ;;
  match g_additionalParamKey w with
  | Some k => ret k
  | None => throw ReferenceError
  end.

(** A call on a collaborator, appended to the trace. *)
Definition emit (e : Event) : JS unit :=
  modify (fun w => {| g_additionalParamKey := g_additionalParamKey w; g_key := g_key w;
                      trace := trace w ++ [e] |}).

(** [Ext.getCmp(id).getChecked()]: a [TypeError] when no component has
    that id or the component has no such method. *)
Definition getChecked (h : Host) (id : string) : result JsError (list Checkbox) :=
  match getCmp h id with
  | Some (CheckboxGroup boxes) => Ok boxes
  | Some OtherComponent => Throw TypeError
  | None => Throw TypeError
  end.

(** The world with the global [key] set to the last element of [ks], if
    any: what a [for-in] over [ks] that assigns [key] leaves. *)
Definition with_key (ko : option string) (w : World) : World :=
  match ko with
  | Some k => {| g_additionalParamKey := g_additionalParamKey w; g_key := Some k; trace := trace w |}
  | None => w
  end.

(** The same for [additionalParamKey]. *)
Definition with_additionalParamKey (ko : option string) (w : World) : World :=
  match ko with
  | Some k => {| g_additionalParamKey := Some k; g_key := g_key w; trace := trace w |}
  | None => w
  end.

(** The world after the calls [es] on collaborators. *)
Definition with_events (es : list Event) (w : World) : World :=
  {| g_additionalParamKey := g_additionalParamKey w; g_key := g_key w; trace := trace w ++ es |}.

Arguments with_key : simpl never.
Arguments with_additionalParamKey : simpl never.
Arguments with_events : simpl never.

Lemma set_key_run k w : set_key k w = (Ok tt, with_key (Some k) w).
Proof. done. Qed.

Lemma with_key_trace ko w : trace (with_key ko w) = trace w.
Proof. by destruct ko. Qed.

Lemma with_key_additionalParamKey ko w :
  g_additionalParamKey (with_key ko w) = g_additionalParamKey w.
Proof. by destruct ko. Qed.

Lemma with_key_with_key k ko w :
  with_key ko (with_key (Some k) w) = with_key (Some (default k ko)) w.
Proof. by destruct ko. Qed.

Lemma set_additionalParamKey_run k w :
  set_additionalParamKey k w = (Ok tt, with_additionalParamKey (Some k) w).
Proof. done. Qed.

Lemma read_additionalParamKey_run k w :
  g_additionalParamKey w = Some k -> read_additionalParamKey w = (Ok k, w).
Proof. intros H. unfold read_additionalParamKey, bind, get. by rewrite H. Qed.

Lemma emit_run e w : emit e w = (Ok tt, with_events [e] w).
Proof. done. Qed.

Lemma with_additionalParamKey_get k w :
  g_additionalParamKey (with_additionalParamKey (Some k) w) = Some k.
Proof. done. Qed.

Lemma with_additionalParamKey_trace ko w : trace (with_additionalParamKey ko w) = trace w.
Proof. by destruct ko. Qed.

Lemma with_additionalParamKey_key ko w : g_key (with_additionalParamKey ko w) = g_key w.
Proof. by destruct ko. Qed.

(** The later assignment wins. *)
Lemma with_additionalParamKey_twice ko' ko w :
  with_additionalParamKey ko' (with_additionalParamKey ko w)
  = with_additionalParamKey (from_option Some ko ko') w.
Proof. by destruct ko', ko. Qed.

Lemma with_key_idemp ko w : with_key ko (with_key ko w) = with_key ko w.
Proof. by destruct ko. Qed.

Lemma with_key_with_additionalParamKey ko ko' w :
  with_key ko (with_additionalParamKey ko' w) = with_additionalParamKey ko' (with_key ko w).
Proof. by destruct ko, ko'. Qed.

Lemma with_key_get k w : g_key (with_key (Some k) w) = Some k.
Proof. done. Qed.

Lemma with_events_trace es w : trace (with_events es w) = trace w ++ es.
Proof. done. Qed.

Lemma with_events_additionalParamKey es w :
  g_additionalParamKey (with_events es w) = g_additionalParamKey w.
Proof. done. Qed.

Lemma with_events_key es w : g_key (with_events es w) = g_key w.
Proof. done. Qed.

Lemma with_events_app es1 es2 w :
  with_events es2 (with_events es1 w) = with_events (es1 ++ es2) w.
Proof. unfold with_events. simpl. by rewrite app_assoc. Qed.

(** ** Computations that make no call on a collaborator *)

(** A computation that leaves the trace alone keeps it equal to [t]. *)
Lemma preserves_trace {A} (t : list Event) (m : JS A) :
  (forall w, trace (m w).2 = trace w) -> preserves (fun w => trace w = t) m.
Proof. intros Hm w <-. apply Hm. Qed.

Lemma set_additionalParamKey_trace t k :
  preserves (fun w => trace w = t) (set_additionalParamKey k).
Proof. by apply preserves_trace. Qed.

Lemma set_key_trace t k : preserves (fun w => trace w = t) (set_key k).
Proof. by apply preserves_trace. Qed.

Lemma read_additionalParamKey_trace t :
  preserves (fun w => trace w = t) read_additionalParamKey.
Proof.
  apply preserves_trace. intros w. unfold read_additionalParamKey, bind, get.
  by destruct (g_additionalParamKey w).
Qed.

#[export] Hint Resolve set_additionalParamKey_trace set_key_trace read_additionalParamKey_trace : js.
#[export] Hint Resolve set_key_run set_additionalParamKey_run read_additionalParamKey_run
  emit_run with_additionalParamKey_get : js.
#[export] Hint Rewrite with_key_trace with_key_additionalParamKey
  with_additionalParamKey_get with_additionalParamKey_trace with_additionalParamKey_key
  with_key_get with_events_trace with_events_additionalParamKey with_events_key
  with_events_app with_key_idemp : js.
