(* ===== verification/Fixtures.v ===== *)
(** * Concrete forms and registries

    The inputs of the scenarios of section 8 of the repository's spec,
    with the field name the code uses ([cswServiceId]), and a few more
    that reach the branches the scenarios leave out.  The theorems of the
    other files are applied to them in their witnesses. *)

From stdpp Require Import strings.
From stdpp Require Import base option list.
From S2P Require Import Prelude JsValue Panel World.

(** The checked boxes of the scenarios: one registry. *)
Definition boxes_one : list Checkbox :=
  [{| inputValue := "srv1"; boxLabel := "Registry One" |}].

(** Two boxes with the same value: the first label is the one found. *)
Definition boxes_twice : list Checkbox :=
  [{| inputValue := "srv2"; boxLabel := "Registry Two" |};
   {| inputValue := "srv1"; boxLabel := "Registry One" |};
   {| inputValue := "srv1"; boxLabel := "Registry One again" |}].

(** A component registry that holds the group with the given boxes. *)
Definition registry_with (boxes : list Checkbox) (id : string) : option Component :=
  if String.eqb id "registryTabCheckboxGroup" then Some (CheckboxGroup boxes) else None.

(** A component registry without the group. *)
Definition registry_without (id : string) : option Component := None.

(** Scenario A: one keyword, one service. *)
Definition form_A : JsObject :=
  [("keyword", JStr "ice"); ("cswServiceId", JStr "srv1")].

(** Scenario B: an empty keyword, two services, the second unknown. *)
Definition form_B : JsObject :=
  [("keyword", JStr ""); ("cswServiceId", JArr [JStr "srv1"; JStr "srv2"])].

(** Scenario C: a field with four values. *)
Definition form_C : JsObject :=
  [("bbox", JArr [JStr "1"; JStr "2"; JStr "3"; JStr "4"]); ("cswServiceId", JStr "srv1")].

(** The service field first and fields after it; values the form
    collaborator does not produce but the guard has to survive. *)
Definition form_mixed : JsObject :=
  [("cswServiceId", JArr [JStr "srv1"; JStr "srv1"]); ("anyText", JStr "gold");
   ("from", JNull); ("count", JNum 3); ("flag", JBool true); ("tags", JArr [])].

(** No service field. *)
Definition form_none : JsObject := [("keyword", JStr "ice")].

Definition host_of (valid : bool) (o : JsObject) (reg : string -> option Component) : Host :=
  {| isValid := valid; getValues := o; getCmp := reg |}.

Definition host_A : Host := host_of true form_A (registry_with boxes_one).
Definition host_B : Host := host_of true form_B (registry_with boxes_one).
Definition host_none : Host := host_of true form_none registry_without.
Definition host_invalid : Host := host_of false form_A (registry_with boxes_one).
Definition host_unregistered : Host := host_of true form_B registry_without.
