(* ===== verification/Denormalise.v ===== *)
(** * [denormaliseKvp]: the form's values as two parallel arrays

    The closure of lines 85-94 of [CSWFilterWindow.js].  It walks over the
    keys of [kvpObj] with [for (key in kvpObj)], which assigns the
    undeclared variable [key], and pushes the key and the value of every
    entry that passes the guard
    [kvpObj[key] && kvpObj[key].length > 0 && key != 'cswServiceId'].

    The theorems: the guard never throws, the closure is the filter
    [kept] over the entries, the two arrays stay parallel, the reserved
    key is never pushed, every pushed value is a non-empty string or
    array, and the order of the keys is the enumeration order. *)

From stdpp Require Import strings.
From stdpp Require Import base option list.
From S2P Require Import Prelude JsValue Panel World Fixtures.

(** ** The code *)

(** The name of the field that selects the services. *)
Definition cswServiceId_key : string := "cswServiceId".

(** The guard of line 88, with the short circuit of [&&]: the length is
    read only of a truthy value, the key is compared only when the
    length is positive. *)
Definition keep_entry (v : JsVal) (k : string) : result JsError bool :=
  if truthy v then
    result_bind (js_length v) (fun len =>
      if gt_zero len then Ok (negb (String.eqb k cswServiceId_key)) else Ok false)
  else Ok false.

(** One turn of the loop of lines 87-92 on the two arrays. *)
Definition denormalise_step (kvpObj : JsObject) (k : string)
    (s : list string * list JsVal) : JS (list string * list JsVal) :=
  set_key k ;;
  c <- lift (keep_entry (obj_get kvpObj k) k) ;;
  if c then ret (s.1 ++ [k], s.2 ++ [obj_get kvpObj k]) else ret s.

(** [denormaliseKvp(keyList, valueList, kvpObj)]; [None] is a falsy
    [kvpObj] (undefined or null).  The arrays are returned, as the
    caller reads them after the call. *)
Definition denormaliseKvp (keyList : list string) (valueList : list JsVal)
    (kvpObj : option JsObject) : JS (list string * list JsVal) :=
  match kvpObj with
  | Some o => for_in (obj_keys o) (denormalise_step o) (keyList, valueList)
  | None => ret (keyList, valueList)
  end.

(** ** The reference *)

(** A value with a positive length: a non-empty string or array. *)
Definition nonempty (v : JsVal) : bool :=
  match v with
  | JStr s => negb (String.eqb s "")
  | JArr l => negb (bool_decide (l = []))
  | _ => false
  end.

(** The entries [denormaliseKvp] keeps. *)
Definition keeps (v : JsVal) (k : string) : bool :=
  nonempty v && negb (String.eqb k cswServiceId_key).

(** The kept entries of an object, in enumeration order. *)
Definition kept (o : JsObject) : list (string * JsVal) :=
  omap (fun k => if keeps (obj_get o k) k then Some (k, obj_get o k) else None) (obj_keys o).

Definition kept_keys (o : JsObject) : list string := (kept o).*1.
Definition kept_values (o : JsObject) : list JsVal := (kept o).*2.

(** ** The guard *)

Lemma nonempty_spec v :
  nonempty v = true <->
  (exists s, v = JStr s /\ s <> "") \/ (exists l, v = JArr l /\ l <> []).
Proof.
  destruct v; simpl; try (split; [done | by intros [(?&?&?)|(?&?&?)]]).
  - rewrite negb_true_iff, String.eqb_neq. split; [eauto|].
    by intros [(?&[=->]&?)|(?&?&?)].
  - rewrite negb_true_iff, bool_decide_eq_false. split; [eauto|].
    by intros [(?&?&?)|(?&[=->]&?)].
Qed.

Lemma nonempty_truthy v : nonempty v = true -> truthy v = true.
Proof. by destruct v. Qed.

(** The guard of the source is the predicate [keeps], and it never
    throws: [&&] reads [length] only of a truthy value. *)
Lemma keep_entry_ok v k : keep_entry v k = Ok (keeps v k).
Proof.
  unfold keep_entry, keeps.
  destruct v as [| |[]|n|s|l]; simpl; try done.
  - by destruct (n =? 0)%Z.
  - by destruct s.
  - by destruct l.
Qed.

Lemma keeps_reserved v : keeps v cswServiceId_key = false.
Proof. unfold keeps. rewrite String.eqb_refl. apply andb_false_r. Qed.

Lemma keeps_true v k :
  keeps v k = true <-> nonempty v = true /\ k <> cswServiceId_key.
Proof.
  unfold keeps. by rewrite andb_true_iff, negb_true_iff, String.eqb_neq.
Qed.

(** ** The closure is the filter *)

Lemma denormalise_step_run o k s w :
  denormalise_step o k s w =
  (Ok (if keeps (obj_get o k) k then (s.1 ++ [k], s.2 ++ [obj_get o k]) else s),
   with_key (Some k) w).
Proof.
  unfold denormalise_step, bind, lift. rewrite set_key_run, keep_entry_ok.
  by destruct (keeps _ _).
Qed.

(** The two arrays after a walk over the keys [ks]. *)
Lemma denormalise_foldl o ks kl vl :
  foldl (fun (s : list string * list JsVal) k =>
           if keeps (obj_get o k) k then (s.1 ++ [k], s.2 ++ [obj_get o k]) else s)
        (kl, vl) ks
  = (kl ++ (omap (fun k => if keeps (obj_get o k) k then Some (k, obj_get o k) else None) ks).*1,
     vl ++ (omap (fun k => if keeps (obj_get o k) k then Some (k, obj_get o k) else None) ks).*2).
Proof.
  revert kl vl. induction ks as [|k ks IH]; intros kl vl; simpl.
  - by rewrite !app_nil_r.
  - destruct (keeps _ _); simpl; rewrite IH; [|done].
    by rewrite <- !app_assoc.
Qed.

(** The global [key] after a walk over the keys [ks]. *)
Lemma with_key_foldl ks w :
  foldl (fun w k => with_key (Some k) w) w ks = with_key (last ks) w.
Proof.
  revert w. induction ks as [|k ks IH]; intros w; [done|].
  simpl. rewrite IH, with_key_with_key, last_cons. by destruct (last ks).
Qed.

Lemma denormaliseKvp_some kl vl o w :
  denormaliseKvp kl vl (Some o) w =
  (Ok (kl ++ kept_keys o, vl ++ kept_values o), with_key (last (obj_keys o)) w).
Proof.
  unfold denormaliseKvp.
  erewrite for_in_pure by (intros; apply denormalise_step_run).
  by rewrite denormalise_foldl, with_key_foldl.
Qed.

(** ** The kept entries *)

Lemma elem_of_kept o k v :
  (k, v) ∈ kept o <-> k ∈ obj_keys o /\ v = obj_get o k /\ keeps v k = true.
Proof.
  unfold kept. rewrite list_elem_of_omap. split.
  - intros (k' & Hin & Hk). destruct (keeps _ _) eqn:Hkeep; by simplify_eq.
  - intros (Hin & -> & Hkeep). exists k. by rewrite Hkeep.
Qed.

Lemma length_kept_keys_values o : length (kept_keys o) = length (kept_values o).
Proof. unfold kept_keys, kept_values. by rewrite !length_fmap. Qed.

Lemma kept_keys_sublist o : kept_keys o `sublist_of` obj_keys o.
Proof.
  unfold kept_keys, kept. induction (obj_keys o) as [|k ks IH]; [constructor|].
  simpl. destruct (keeps _ _); csimpl; by constructor.
Qed.

Lemma omap_keys_filter (g : string -> JsVal) (o : JsObject) :
  (forall k v, (k, v) ∈ o -> g k = v) ->
  omap (fun k => if keeps (g k) k then Some (k, g k) else None) o.*1
  = List.filter (fun kv => keeps kv.2 kv.1) o.
Proof.
  induction o as [|[k v] o IH]; intros Hg; [done|].
  csimpl. rewrite (Hg k v) by left. rewrite IH by (intros; apply Hg; by right).
  by destruct (keeps v k).
Qed.

(** On an object with each key once the kept entries are its entries
    that pass the guard. *)
Lemma kept_filter o :
  wf_obj o -> kept o = List.filter (fun kv => keeps kv.2 kv.1) o.
Proof.
  intros Hwf. apply omap_keys_filter. intros k v. by apply obj_get_elem_of.
Qed.

Lemma kept_keys_no_reserved o : cswServiceId_key ∉ kept_keys o.
Proof.
  intros ([k v] & Hk & Hin)%list_elem_of_fmap. simpl in Hk. subst k.
  apply elem_of_kept in Hin as (_ & _ & [_ Hne]%keeps_true). done.
Qed.

(** The kept entries depend on the keys and on the values of the fields
    other than [cswServiceId]. *)
Lemma kept_ext o1 o2 :
  obj_keys o1 = obj_keys o2 ->
  (forall k, k <> cswServiceId_key -> obj_get o1 k = obj_get o2 k) ->
  kept o1 = kept o2.
Proof.
  intros Hkeys Hget. unfold kept. rewrite Hkeys.
  apply list_omap_ext, Forall_Forall2_diag, Forall_forall.
  intros k _. destruct (decide (k = cswServiceId_key)) as [->|Hne].
  - by rewrite !keeps_reserved.
  - by rewrite Hget.
Qed.

(** ** What the closure guarantees *)

(** C6: [denormaliseKvp] never throws, whatever the object holds: the
    guard reads [length] only behind the truthiness test, so undefined
    and null values are skipped without a [TypeError]. *)
Theorem denormaliseKvp_never_throws (kl : list string) (vl : list JsVal)
    (kvpObj : option JsObject) (w : World) :
  is_ok (denormaliseKvp kl vl kvpObj w).1 = true.
Proof. destruct kvpObj as [o|]; [by rewrite denormaliseKvp_some | done]. Qed.

(** C3: on an object (each key once) [denormaliseKvp] appends to the two
    arrays the keys and the values of the entries that pass the guard, in
    enumeration order: it is the filter of the entries by [keeps], and
    the arrays passed in are a prefix of the result. *)
Theorem denormaliseKvp_filter (kl : list string) (vl : list JsVal) (o : JsObject) (w : World) :
  wf_obj o ->
  (denormaliseKvp kl vl (Some o) w).1 =
  Ok (kl ++ (List.filter (fun kv => keeps kv.2 kv.1) o).*1,
      vl ++ (List.filter (fun kv => keeps kv.2 kv.1) o).*2).
Proof.
  intros Hwf. rewrite denormaliseKvp_some. unfold kept_keys, kept_values.
  by rewrite kept_filter.
Qed.

Lemma denormaliseKvp_filter_witness :
  (denormaliseKvp [] [] (Some form_mixed) initial_world).1 =
  Ok ([] ++ (List.filter (fun kv => keeps kv.2 kv.1) form_mixed).*1,
      [] ++ (List.filter (fun kv => keeps kv.2 kv.1) form_mixed).*2).
Proof.
  apply (denormaliseKvp_filter [] [] form_mixed).
  apply (bool_decide_unpack _). vm_compute. exact I.
Defined.

(** C18: the two arrays stay parallel: when they have the same length
    before the call they have the same length after it, and the value at
    an index is the value of the object at the key of that index. *)
Theorem denormaliseKvp_parallel (kl : list string) (vl : list JsVal)
    (kvpObj : option JsObject) (w : World) (kl' : list string) (vl' : list JsVal) :
  length kl = length vl ->
  (denormaliseKvp kl vl kvpObj w).1 = Ok (kl', vl') ->
  length kl' = length vl' /\
  (forall i k, length kl <= i -> kl' !! i = Some k ->
     exists o, kvpObj = Some o /\ vl' !! i = Some (obj_get o k)).
Proof.
  intros Hlen. destruct kvpObj as [o|].
  - rewrite denormaliseKvp_some. intros [= <- <-]. split.
    { rewrite !length_app, length_kept_keys_values. lia. }
    intros i k Hi Hk. exists o. split; [done|].
    rewrite lookup_app_r in Hk by lia. rewrite lookup_app_r by lia. rewrite <- Hlen.
    unfold kept_keys, kept_values in *. rewrite list_lookup_fmap in Hk. rewrite list_lookup_fmap.
    destruct (kept o !! (i - length kl)) as [[k' v']|] eqn:Hi'; [|done].
    injection Hk as ->. apply list_elem_of_lookup_2, elem_of_kept in Hi' as (_ & -> & _). done.
  - simpl. intros [= <- <-]. split; [done|]. intros i k Hi Hk.
    apply lookup_lt_Some in Hk. lia.
Qed.

Lemma denormaliseKvp_parallel_witness :
  length ["keyword"] = length [JStr "ice"] /\
  (forall i k, length (@nil string) <= i -> ["keyword"] !! i = Some k ->
     exists o, Some form_A = Some o /\ [JStr "ice"] !! i = Some (obj_get o k)).
Proof.
  apply (denormaliseKvp_parallel [] [] (Some form_A) initial_world ["keyword"] [JStr "ice"]);
    reflexivity.
Defined.

(** C16: every entry [denormaliseKvp] pushes passed the guard: its key is
    not [cswServiceId] and its value is a non-empty string or a non-empty
    array; empty strings, empty arrays, undefined, null, booleans and
    numbers are never pushed. *)
Theorem denormaliseKvp_sound (kl : list string) (vl : list JsVal) (o : JsObject)
    (w : World) (kl' : list string) (vl' : list JsVal) (i : nat) (k : string) (v : JsVal) :
  (denormaliseKvp kl vl (Some o) w).1 = Ok (kl', vl') ->
  length kl = length vl -> length kl <= i ->
  kl' !! i = Some k -> vl' !! i = Some v ->
  k <> "cswServiceId" /\
  ((exists s, v = JStr s /\ s <> "") \/ (exists l, v = JArr l /\ l <> [])).
Proof.
  rewrite denormaliseKvp_some. intros [= <- <-] Hlen Hi Hk Hv.
  rewrite lookup_app_r in Hk by lia. rewrite lookup_app_r in Hv by lia.
  rewrite <- Hlen in Hv. unfold kept_keys, kept_values in *.
  rewrite list_lookup_fmap in Hk. rewrite list_lookup_fmap in Hv.
  destruct (kept o !! (i - length kl)) as [[k' v']|] eqn:Hi'; [|done].
  simpl in *. simplify_eq.
  apply list_elem_of_lookup_2, elem_of_kept in Hi' as (_ & _ & [Hne Hk]%keeps_true).
  split; [done | by apply nonempty_spec].
Qed.

Lemma denormaliseKvp_sound_witness :
  "anyText" <> "cswServiceId" /\
  ((exists s, JStr "gold" = JStr s /\ s <> "") \/ (exists l, JStr "gold" = JArr l /\ l <> [])).
Proof.
  apply (denormaliseKvp_sound [] [] form_mixed initial_world ["anyText"] [JStr "gold"] 0);
    (reflexivity || simpl; lia).
Defined.

(** C17: [denormaliseKvp] drops nothing it should keep: a key of the
    object other than [cswServiceId] whose value is a non-empty string
    or a non-empty array is pushed, with that value at the same index. *)
Theorem denormaliseKvp_complete (kl : list string) (vl : list JsVal) (o : JsObject)
    (w : World) (kl' : list string) (vl' : list JsVal) (k : string) :
  (denormaliseKvp kl vl (Some o) w).1 = Ok (kl', vl') ->
  length kl = length vl ->
  k ∈ obj_keys o -> k <> "cswServiceId" -> nonempty (obj_get o k) = true ->
  exists i, length kl <= i /\ kl' !! i = Some k /\ vl' !! i = Some (obj_get o k).
Proof.
  rewrite denormaliseKvp_some. intros [= <- <-] Hlen Hin Hne Hv.
  assert ((k, obj_get o k) ∈ kept o) as [j Hj]%list_elem_of_lookup_1.
  { apply elem_of_kept. split_and!; [done..|]. by apply keeps_true. }
  exists (length kl + j). split; [lia|].
  rewrite Hlen at 2. rewrite !lookup_app_r by lia.
  replace (length kl + j - length kl) with j by lia.
  replace (length vl + j - length vl) with j by lia.
  unfold kept_keys, kept_values. by rewrite !list_lookup_fmap, Hj.
Qed.

Lemma denormaliseKvp_complete_witness :
  exists i, length (@nil string) <= i /\
    ["bbox"] !! i = Some "bbox" /\ [JArr [JStr "1"; JStr "2"; JStr "3"; JStr "4"]] !! i = Some (obj_get form_C "bbox").
Proof.
  apply (denormaliseKvp_complete [] [] form_C initial_world
           ["bbox"] [JArr [JStr "1"; JStr "2"; JStr "3"; JStr "4"]] "bbox");
    try reflexivity; [|discriminate].
  apply (bool_decide_unpack _). vm_compute. exact I.
Defined.

(** C27: the keys [denormaliseKvp] pushes come in the order [for-in]
    enumerates them: the pushed keys are a subsequence of the keys of
    the object, so no key is pushed twice or out of order. *)
Theorem denormaliseKvp_order (vl : list JsVal) (o : JsObject) (w : World)
    (kl' : list string) (vl' : list JsVal) :
  (denormaliseKvp [] vl (Some o) w).1 = Ok (kl', vl') ->
  kl' `sublist_of` obj_keys o.
Proof.
  rewrite denormaliseKvp_some. intros [= <- <-]. apply kept_keys_sublist.
Qed.

Lemma denormaliseKvp_order_witness : ["anyText"] `sublist_of` obj_keys form_mixed.
Proof.
  apply (denormaliseKvp_order [] form_mixed initial_world ["anyText"] [JStr "gold"]).
  reflexivity.
Defined.

(** C28: [denormaliseKvp] assigns the undeclared variable [key]: after
    the call the global [key] holds the last key [for-in] enumerated
    (also when nothing was pushed), and nothing else of the world has
    changed; on an object without keys or a falsy [kvpObj] the world is
    untouched. *)
Theorem denormaliseKvp_leaks_key (kl : list string) (vl : list JsVal)
    (kvpObj : option JsObject) (w : World) :
  (denormaliseKvp kl vl kvpObj w).2 =
  match kvpObj ≫= (fun o => last (obj_keys o)) with
  | Some k => {| g_additionalParamKey := g_additionalParamKey w; g_key := Some k; trace := trace w |}
  | None => w
  end.
Proof.
  destruct kvpObj as [o|]; [|done]. rewrite denormaliseKvp_some. simpl.
  by destruct (last (obj_keys o)).
Qed.
