(* ===== verification/TabPanels.v ===== *)
(** * [_getTabPanels]: one panel descriptor per selected service

    The method of lines 77-143 of [CSWFilterWindow.js]: it flattens the
    form's values with [denormaliseKvp], appends the pair
    [cswServiceId]/selected id, creates the store, reads the checked
    boxes of the component [registryTabCheckboxGroup] and scans them for
    the label of the selected id.

    The title loop is defined by well-founded recursion on the number of
    boxes left, so that it ends is part of its definition.  The
    theorems: the title loop is a first-match search and falls back to
    the fixed title; the method returns the panel of the kept entries
    followed by the selected id, with parallel arrays, and leaves only
    the global [key] changed; it throws a [TypeError] when the registry
    component is missing; the value stored under [cswServiceId] in the
    form never reaches the panel. *)

From Equations Require Import Equations.
From stdpp Require Import strings.
From stdpp Require Import base option list.
From S2P Require Import Prelude JsValue Panel World Fixtures Denormalise.

(** ** The code *)

(** The title a panel gets when no checked box has the selected id. *)
Definition fallback_title : string := "Error retrieving title".

(** The loop of lines 126-131 from index [i] on, with the title so far.
    [registriesArray !! i] is [None] exactly when the test
    [i < registriesArray.length] fails; a match ends the loop ([break]).
    The definition is by well-founded recursion on
    [registriesArray.length - i], which the turn that goes on to [i + 1]
    decreases: the loop needs no fuel, and it ends. *)
Equations? title_loop (registriesArray : list Checkbox) (cswServiceId : JsVal) (i : nat)
    (title : string) : string by wf (length registriesArray - i) lt :=
  title_loop registriesArray cswServiceId i title with inspect (registriesArray !! i) := {
    | exist _ None _ := title;
    | exist _ (Some box) Hi :=
        if strict_eq_str (inputValue box) cswServiceId then boxLabel box
        else title_loop registriesArray cswServiceId (S i) title }.
Proof. apply lookup_lt_Some in Hi. lia. Qed.

(** Lines 125-131: the title of the panel for [cswServiceId]. *)
Definition resolve_title (registriesArray : list Checkbox) (cswServiceId : JsVal) : string :=
  title_loop registriesArray cswServiceId 0 fallback_title.

(** [_getTabPanels(params, cswServiceId)]; [None] is a falsy [params]. *)
Definition _getTabPanels (h : Host) (params : option JsObject) (cswServiceId : JsVal)
    : JS Panel :=
  let keys := [] in
  let values := [] in
  let additionalParams := params in
  '(keys, values) <- denormaliseKvp keys values additionalParams ;;
  let keys := keys ++ [cswServiceId_key] in
  let values := values ++ [cswServiceId] in
  let store := filterCSWStore keys values in
  registriesArray <- lift (getChecked h "registryTabCheckboxGroup") ;;
  let title := resolve_title registriesArray cswServiceId in
  ret (tab_panel title store).

(** ** The reference *)

(** The checked boxes the method reads at line 124, or the error of the
    lookup. *)
Definition checked_boxes (h : Host) : result JsError (list Checkbox) :=
  getChecked h "registryTabCheckboxGroup".

(** The first checked box whose value is the selected id. *)
Definition first_match (boxes : list Checkbox) (id : JsVal) : option Checkbox :=
  snd <$> list_find (fun box => JStr (inputValue box) = id) boxes.

(** The panel for the selected id [id] of the form [o] with the checked
    boxes [boxes]. *)
Definition panel_of (boxes : list Checkbox) (o : option JsObject) (id : JsVal) : Panel :=
  tab_panel (default fallback_title (boxLabel <$> first_match boxes id))
            (filterCSWStore (from_option kept_keys [] o ++ [cswServiceId_key])
                            (from_option kept_values [] o ++ [id])).

Lemma panel_of_keys boxes o id :
  panel_keys (panel_of boxes o id) = from_option kept_keys [] o ++ [cswServiceId_key].
Proof. done. Qed.

Lemma panel_of_values boxes o id :
  panel_values (panel_of boxes o id) = from_option kept_values [] o ++ [id].
Proof. done. Qed.

(** ** The title loop *)

Lemma first_match_cons box boxes id :
  first_match (box :: boxes) id =
  if strict_eq_str (inputValue box) id then Some box else first_match boxes id.
Proof.
  unfold first_match. simpl. destruct (decide _) as [Heq|Hne].
  - by rewrite (proj2 (strict_eq_str_spec _ _)).
  - destruct (strict_eq_str _ _) eqn:Hs.
    + by apply strict_eq_str_spec in Hs.
    + rewrite <- !option_fmap_compose. by destruct (list_find _ _) as [[??]|].
Qed.

(** The loop returns the label of the first match from [i] on, or the
    title it started with. *)
Lemma title_loop_drop boxes id i t :
  title_loop boxes id i t = default t (boxLabel <$> first_match (drop i boxes) id).
Proof.
  funelim (title_loop boxes id i t).
  - rewrite (drop_S _ _ _ Hi), first_match_cons.
    by destruct (strict_eq_str _ _).
  - rewrite drop_ge; [done|]. by apply lookup_ge_None.
Qed.

Lemma resolve_title_first_match boxes id :
  resolve_title boxes id = default fallback_title (boxLabel <$> first_match boxes id).
Proof. unfold resolve_title. by rewrite title_loop_drop, drop_0. Qed.

(** ** The method *)

Lemma denormaliseKvp_run kl vl o w :
  denormaliseKvp kl vl o w =
  (Ok (kl ++ from_option kept_keys [] o, vl ++ from_option kept_values [] o),
   with_key (o ≫= fun o => last (obj_keys o)) w).
Proof.
  destruct o as [o|]; [apply denormaliseKvp_some|].
  simpl. by rewrite !app_nil_r.
Qed.

(** What the method does in every case: the global [key] is left at the
    last key of the form, and the result is the panel or the error of
    the registry lookup. *)
Lemma getTabPanels_run h o id w :
  _getTabPanels h o id w =
  (match checked_boxes h with
   | Ok boxes => Ok (panel_of boxes o id)
   | Throw e => Throw e
   end,
   with_key (o ≫= fun o => last (obj_keys o)) w).
Proof.
  unfold _getTabPanels, panel_of.
  erewrite bind_ok by apply denormaliseKvp_run. unfold bind, lift, ret, checked_boxes. simpl.
  destruct (getChecked _ _); [|done].
  by rewrite resolve_title_first_match.
Qed.

(** The method makes no call on a collaborator. *)
Lemma getTabPanels_trace h o id w : trace (_getTabPanels h o id w).2 = trace w.
Proof. rewrite getTabPanels_run. apply with_key_trace. Qed.

(** The method does not assign [additionalParamKey]: its loop variable
    is [key]. *)
Lemma getTabPanels_additionalParamKey h o id w :
  g_additionalParamKey (_getTabPanels h o id w).2 = g_additionalParamKey w.
Proof. rewrite getTabPanels_run. apply with_key_additionalParamKey. Qed.

(** ** What the method guarantees *)

(** C4: the title of a panel is the label of the first checked box whose
    [inputValue] is strictly equal to the selected id: boxes before it
    with another value are skipped, boxes after it are not looked at. *)
Theorem resolve_title_first (boxes : list Checkbox) (i : nat) (box : Checkbox) :
  boxes !! i = Some box ->
  (forall j b, j < i -> boxes !! j = Some b -> inputValue b <> inputValue box) ->
  resolve_title boxes (JStr (inputValue box)) = boxLabel box.
Proof.
  intros Hi Hbefore. rewrite resolve_title_first_match. unfold first_match.
  assert (list_find (fun b => JStr (inputValue b) = JStr (inputValue box)) boxes
          = Some (i, box)) as ->; [|done].
  apply list_find_Some. split_and!; [done..|].
  intros j b Hj Hlt [= Heq]. by eapply Hbefore.
Qed.

Lemma resolve_title_first_witness :
  resolve_title boxes_twice (JStr "srv1") = "Registry One".
Proof.
  apply (resolve_title_first boxes_twice 1 {| inputValue := "srv1"; boxLabel := "Registry One" |});
    [reflexivity|].
  intros [|j] b Hj Hb; [|lia]. injection Hb as <-. simpl. discriminate.
Defined.

(** C19: when no checked box has the selected id as its [inputValue] (in
    particular when the id is not a string) the title is the fixed
    ["Error retrieving title"]; the lookup never fails. *)
Theorem resolve_title_fallback (boxes : list Checkbox) (id : JsVal) :
  (forall b, b ∈ boxes -> JStr (inputValue b) <> id) ->
  resolve_title boxes id = "Error retrieving title".
Proof.
  intros Hnone. rewrite resolve_title_first_match. unfold first_match.
  assert (list_find (fun b => JStr (inputValue b) = id) boxes = None) as ->; [|done].
  apply list_find_None, Forall_forall. done.
Qed.

Lemma resolve_title_fallback_witness :
  resolve_title boxes_one (JStr "srv2") = "Error retrieving title".
Proof.
  apply (resolve_title_fallback boxes_one (JStr "srv2")).
  intros b ->%list_elem_of_singleton. discriminate.
Defined.

(** C7: with the registry group present [_getTabPanels] returns the
    panel whose title is resolved from the checked boxes and whose
    store sends the kept keys followed by ["cswServiceId"] and the kept
    values followed by the selected id, with page size 35 and not loaded;
    the only change of the world is the assignment of [key]. *)
Theorem getTabPanels_returns (h : Host) (boxes : list Checkbox) (o : JsObject)
    (id : JsVal) (w : World) :
  getCmp h "registryTabCheckboxGroup" = Some (CheckboxGroup boxes) ->
  _getTabPanels h (Some o) id w =
  (Ok {| title := resolve_title boxes id;
         xtype := "cswrecordpagingpanel";
         layout := "fit";
         store := {| model := "portal.csw.CSWRecord";
                     pageSize := 35;
                     autoLoad := false;
                     proxy := {| proxy_type := "ajax";
                                 url := "getFilteredCSWRecords.do";
                                 reader := {| reader_type := "json"; root := "data";
                                              successProperty := "success";
                                              totalProperty := "totalResults" |};
                                 extraParams := {| key := kept_keys o ++ ["cswServiceId"];
                                                   value := kept_values o ++ [id] |} |} |} |},
   with_key (last (obj_keys o)) w).
Proof.
  intros Hcmp. rewrite getTabPanels_run. unfold checked_boxes, getChecked. rewrite Hcmp.
  unfold panel_of. by rewrite resolve_title_first_match.
Qed.

Lemma getTabPanels_returns_witness :
  _getTabPanels host_A (Some form_A) (JStr "srv1") initial_world =
  (Ok {| title := resolve_title boxes_one (JStr "srv1");
         xtype := "cswrecordpagingpanel";
         layout := "fit";
         store := {| model := "portal.csw.CSWRecord";
                     pageSize := 35;
                     autoLoad := false;
                     proxy := {| proxy_type := "ajax";
                                 url := "getFilteredCSWRecords.do";
                                 reader := {| reader_type := "json"; root := "data";
                                              successProperty := "success";
                                              totalProperty := "totalResults" |};
                                 extraParams := {| key := kept_keys form_A ++ ["cswServiceId"];
                                                   value := kept_values form_A ++ [JStr "srv1"] |} |} |} |},
   with_key (last (obj_keys form_A)) initial_world).
Proof. apply (getTabPanels_returns host_A boxes_one). reflexivity. Defined.

(** C20: when no component is registered as [registryTabCheckboxGroup],
    or the component has no [getChecked], [_getTabPanels] throws a
    [TypeError] and returns no panel; [denormaliseKvp] has run before,
    so the global [key] is already assigned. *)
Theorem getTabPanels_throws (h : Host) (o : option JsObject) (id : JsVal) (w : World) :
  getCmp h "registryTabCheckboxGroup" = None \/
  getCmp h "registryTabCheckboxGroup" = Some OtherComponent ->
  _getTabPanels h o id w = (Throw TypeError, with_key (o ≫= fun o => last (obj_keys o)) w).
Proof.
  intros Hcmp. rewrite getTabPanels_run. unfold checked_boxes, getChecked.
  by destruct Hcmp as [-> | ->].
Qed.

Lemma getTabPanels_throws_witness :
  _getTabPanels host_none (Some form_none) (JStr "srv1") initial_world =
  (Throw TypeError, with_key (Some form_none ≫= fun o => last (obj_keys o)) initial_world).
Proof. apply (getTabPanels_throws host_none). left. reflexivity. Defined.

(** C15: every panel [_getTabPanels] returns has parallel arrays that end
    with the pair [cswServiceId]/selected id, and [cswServiceId] occurs
    in the keys exactly once, whatever the form holds under that name. *)
Theorem getTabPanels_service_pair (h : Host) (o : option JsObject) (id : JsVal)
    (w : World) (p : Panel) :
  (_getTabPanels h o id w).1 = Ok p ->
  wf_panel p /\
  last (panel_keys p) = Some cswServiceId_key /\
  last (panel_values p) = Some id /\
  length (List.filter (String.eqb cswServiceId_key) (panel_keys p)) = 1.
Proof.
  rewrite getTabPanels_run. cbn [fst]. destruct (checked_boxes h) as [boxes|]; [|done].
  intros [= <-]. unfold wf_panel. rewrite panel_of_keys, panel_of_values, !last_snoc.
  split_and!; [|done..|].
  - apply length_snoc2. destruct o as [o|]; [apply length_kept_keys_values | done].
  - apply count_snoc_fresh. destruct o as [o|]; [apply kept_keys_no_reserved | apply not_elem_of_nil].
Qed.

Lemma getTabPanels_service_pair_witness :
  wf_panel (panel_of boxes_one (Some form_B) (JStr "srv2")) /\
  last (panel_keys (panel_of boxes_one (Some form_B) (JStr "srv2"))) = Some cswServiceId_key /\
  last (panel_values (panel_of boxes_one (Some form_B) (JStr "srv2"))) = Some (JStr "srv2") /\
  length (List.filter (String.eqb cswServiceId_key)
            (panel_keys (panel_of boxes_one (Some form_B) (JStr "srv2")))) = 1.
Proof.
  apply (getTabPanels_service_pair host_B (Some form_B) (JStr "srv2") initial_world).
  reflexivity.
Defined.

(** C23: the panel does not depend on what the form holds under
    [cswServiceId]: a form and the same form with another value
    assigned to that field give the same panel for the same id. *)
Theorem getTabPanels_ignores_service_field (h : Host) (o : JsObject) (v id : JsVal) (w : World) :
  "cswServiceId" ∈ obj_keys o ->
  (_getTabPanels h (Some (obj_set o "cswServiceId" v)) id w).1 = (_getTabPanels h (Some o) id w).1.
Proof.
  intros Hin. rewrite !getTabPanels_run. simpl. destruct (checked_boxes h); [|done].
  unfold panel_of. simpl. unfold kept_keys, kept_values.
  rewrite (kept_ext (obj_set o "cswServiceId" v) o); [done | by apply obj_keys_set_present |].
  intros k Hne. by apply obj_get_set_ne.
Qed.

Lemma getTabPanels_ignores_service_field_witness :
  (_getTabPanels host_A (Some (obj_set form_A "cswServiceId" (JArr [JStr "srv1"]))) (JStr "srv1")
     initial_world).1
  = (_getTabPanels host_A (Some form_A) (JStr "srv1") initial_world).1.
Proof.
  apply (getTabPanels_ignores_service_field host_A form_A).
  apply (bool_decide_unpack _). vm_compute. exact I.
Defined.
