(* ===== verification/Handler.v ===== *)
(** * The handler of the Search button

    The function of lines 27-56 of [CSWFilterWindow.js].  On a valid form
    it reads the values, walks over their keys with
    [for (additionalParamKey in additionalParams)], which assigns the
    undeclared variable [additionalParamKey], and at the key
    [cswServiceId] replaces a value that is not an array by the array of
    that one value and calls [this._getTabPanels] for every element, in
    a counting loop whose condition and body read [additionalParamKey]
    again at each turn.  Then it fires [filterselectcomplete], creates
    and shows the selection window and closes the dialog.

    [this._getTabPanels] is a method call: the handler takes the method
    as a parameter.  The interface [PanelBuilder] says what the loops
    need of it (it leaves the trace and [additionalParamKey] alone), the
    theorems about the loops are proved for every method with that
    interface, and [_getTabPanels] is shown to implement it. *)

From stdpp Require Import strings.
From stdpp Require Import base option list.
From S2P Require Import Prelude JsValue Panel World Fixtures Denormalise TabPanels.

(** ** The interface of the method *)

(** The type of the method [_getTabPanels(params, cswServiceId)]. *)
Definition Method : Type := option JsObject -> JsVal -> JS Panel.

(** What the handler relies on of [this._getTabPanels]: it makes no call
    on a collaborator and does not assign [additionalParamKey]. *)
Class PanelBuilder (build : Method) : Prop := {
  build_trace : forall o id w, trace (build o id w).2 = trace w;
  build_additionalParamKey :
    forall o id w, g_additionalParamKey (build o id w).2 = g_additionalParamKey w;
}.

(** ** The code *)

(** The state of the loops: the form's values, updated in place at line
    37, and the panels collected so far. *)
Definition LoopState : Type := JsObject * list Panel.

Section Handler.
Context (h : Host) (this_getTabPanels : Method).

(** Line 39, the condition [j < additionalParams[additionalParamKey].length]. *)
Definition inner_cond (j : nat) (s : LoopState) : JS bool :=
  k <- read_additionalParamKey ;;
  len <- lift (js_length (obj_get s.1 k)) ;;
  ret (lt_length j len).

(** Line 41:
    [filteredResultPanels.push(this._getTabPanels(additionalParams, additionalParams[additionalParamKey][j]))]. *)
Definition inner_body (j : nat) (s : LoopState) : JS LoopState :=
  k <- read_additionalParamKey ;;
  id <- lift (js_index (obj_get s.1 k) j) ;;
  p <- this_getTabPanels (Some s.1) id ;;
  ret (s.1, s.2 ++ [p]).

(** Lines 36-38: a value that is not an array becomes the array of that
    value, in the object. *)
Definition coerce_to_array (additionalParams : JsObject) : JS JsObject :=
  k <- read_additionalParamKey ;;
  if negb (instanceof_Array (obj_get additionalParams k))
  then ret (obj_set additionalParams k (JArr [obj_get additionalParams k]))
  else ret additionalParams.

(** The number of turns of the loop of line 39: the length of the
    selection.  The loop evaluates its condition once more than that, to
    leave; [handler_step] gives it one unit of fuel per evaluation. *)
Definition selection_length (additionalParams : JsObject) : nat :=
  match js_length (obj_get additionalParams cswServiceId_key) with
  | Ok (Some n) => n
  | _ => 0
  end.

(** One turn of the loop of lines 34-44.  The counting loop runs with
    fuel for every evaluation of its condition, the last one included,
    so it leaves by its condition ([inner_loop_for_each]). *)
Definition handler_step (k : string) (s : LoopState) : JS LoopState :=
  set_additionalParamKey k ;;
  k' <- read_additionalParamKey ;;
  if String.eqb k' cswServiceId_key then
    additionalParams <- coerce_to_array s.1 ;;
    for_loop (S (selection_length additionalParams)) inner_cond inner_body 0
             (additionalParams, s.2)
  else ret s.

(** Lines 46-53: the calls on the collaborators, in order.  Each call
    is taken to return normally: what the listeners of the event, the
    selection window and [close] do is outside the model. *)
Definition announce (filteredResultPanels : list Panel) : JS unit :=
  emit (FireEvent "filterselectcomplete" filteredResultPanels) ;;
  emit (NewSelectionWindow {| sw_title := "CSW Record Selection";
                              resultpanels := filteredResultPanels |}) ;;
  emit ShowSelectionWindow ;;
  emit CloseWindow.

(** [handler(button)]. *)
Definition handler : JS unit :=
  if isValid h then
    let additionalParams := getValues h in
    let filteredResultPanels := [] in
    s <- for_in (obj_keys additionalParams) handler_step
                (additionalParams, filteredResultPanels) ;;
    announce s.2
  else ret tt.

End Handler.

(** [_getTabPanels] has the interface. *)
#[export] Instance getTabPanels_builder (h : Host) : PanelBuilder (_getTabPanels h) :=
  {| build_trace := getTabPanels_trace h;
     build_additionalParamKey := getTabPanels_additionalParamKey h |}.

(** The handler of [CSWFilterWindow]: [this._getTabPanels] is the method
    of the class. *)
Definition CSWFilterWindow_handler (h : Host) : JS unit :=
  handler h (_getTabPanels h).

(** ** The reference *)

(** The selected ids: the elements of the value of [cswServiceId] when it
    is an array, that value alone when it is not, none when the form has
    no such field. *)
Definition selection (o : JsObject) : list JsVal :=
  if bool_decide (cswServiceId_key ∈ obj_keys o) then
    match obj_get o cswServiceId_key with
    | JArr ids => ids
    | v => [v]
    end
  else [].

(** The form's values after the loop: the value of [cswServiceId] is an
    array (line 37). *)
Definition coerced (o : JsObject) : JsObject :=
  if bool_decide (cswServiceId_key ∈ obj_keys o)
     && negb (instanceof_Array (obj_get o cswServiceId_key))
  then obj_set o cswServiceId_key (JArr [obj_get o cswServiceId_key])
  else o.

(** The panels of a form, one per selected id. *)
Definition panels_of (boxes : list Checkbox) (o : JsObject) : list Panel :=
  panel_of boxes (Some o) <$> selection o.

(** The calls of lines 46-53 for the panels [ps]. *)
Definition announcement (ps : list Panel) : list Event :=
  [FireEvent "filterselectcomplete" ps;
   NewSelectionWindow {| sw_title := "CSW Record Selection"; resultpanels := ps |};
   ShowSelectionWindow; CloseWindow].

(** ** The coercion *)

Lemma coerced_get o :
  cswServiceId_key ∈ obj_keys o -> obj_get (coerced o) cswServiceId_key = JArr (selection o).
Proof.
  intros Hin. unfold coerced, selection. rewrite bool_decide_eq_true_2 by done.
  destruct (obj_get o cswServiceId_key) eqn:Hget; simpl; rewrite ?obj_get_set_eq; done.
Qed.

Lemma coerced_get_ne o k : k <> cswServiceId_key -> obj_get (coerced o) k = obj_get o k.
Proof.
  intros Hne. unfold coerced. destruct (_ && _); [|done].
  by apply obj_get_set_ne.
Qed.

Lemma coerced_keys o : obj_keys (coerced o) = obj_keys o.
Proof.
  unfold coerced. case_bool_decide as Hin; simpl; [|done].
  destruct (instanceof_Array _); [done|]. by apply obj_keys_set_present.
Qed.

(** The coercion does not change what [denormaliseKvp] keeps. *)
Lemma kept_coerced o : kept (coerced o) = kept o.
Proof.
  apply kept_ext; [apply coerced_keys|]. intros k Hne. by apply coerced_get_ne.
Qed.

Lemma panel_of_coerced boxes o id :
  panel_of boxes (Some (coerced o)) id = panel_of boxes (Some o) id.
Proof. unfold panel_of. simpl. unfold kept_keys, kept_values. by rewrite kept_coerced. Qed.

Lemma coerce_to_array_run o w :
  g_additionalParamKey w = Some cswServiceId_key -> cswServiceId_key ∈ obj_keys o ->
  coerce_to_array o w = (Ok (coerced o), w).
Proof.
  intros Hk Hin. unfold coerce_to_array. comp_step.
  unfold coerced. rewrite bool_decide_eq_true_2 by done. by destruct (instanceof_Array _).
Qed.

Lemma selection_length_coerced o :
  cswServiceId_key ∈ obj_keys o -> selection_length (coerced o) = length (selection o).
Proof. intros Hin. unfold selection_length. by rewrite coerced_get. Qed.

Lemma selection_absent o : cswServiceId_key ∉ obj_keys o -> selection o = [].
Proof. intros Hnin. unfold selection. by rewrite bool_decide_eq_false_2. Qed.

(** ** The counting loop *)

Section Loops.
Context (build : Method) {B : PanelBuilder build}.
Implicit Types (ap : JsObject) (ids : list JsVal) (ps : list Panel) (w : World).

(** The turn of the loop for the element [id]: its panel is pushed. *)
Definition collect_step (j : nat) (id : JsVal) (s : LoopState) : JS LoopState :=
  p <- build (Some s.1) id ;; ret (s.1, s.2 ++ [p]).

(** What the turns of the loop keep true: the form's values are the
    object [ap], and [additionalParamKey] still names the field. *)
Definition loop_inv ap (s : LoopState) w : Prop :=
  s.1 = ap /\ g_additionalParamKey w = Some cswServiceId_key.

Lemma ltb_bool_decide (j n : nat) : (j <? n) = bool_decide (j < n).
Proof.
  destruct (Nat.ltb_spec j n).
  - by rewrite bool_decide_eq_true_2.
  - rewrite bool_decide_eq_false_2; [done | lia].
Qed.

Lemma inner_cond_run ap ids j s w :
  obj_get ap cswServiceId_key = JArr ids -> loop_inv ap s w ->
  inner_cond j s w = (Ok (bool_decide (j < length ids)), w).
Proof.
  intros Hget [Hs Hk]. unfold inner_cond. comp_step.
  unfold bind, lift, ret. rewrite Hs, Hget. simpl. by rewrite ltb_bool_decide.
Qed.

Lemma inner_body_run ap ids j id s w :
  obj_get ap cswServiceId_key = JArr ids -> loop_inv ap s w -> ids !! j = Some id ->
  inner_body build j s w = collect_step j id s w.
Proof.
  intros Hget [Hs Hk] Hj. unfold inner_body. comp_step.
  unfold bind at 1, lift. by rewrite Hs, Hget, (js_index_arr _ _ _ Hj), <- Hs.
Qed.

Lemma collect_step_inv ap j id s w s' w' :
  loop_inv ap s w -> collect_step j id s w = (Ok s', w') -> loop_inv ap s' w'.
Proof.
  intros [Hs Hk] Hrun. unfold collect_step in Hrun.
  apply bind_ok_inv in Hrun as (p & w1 & Hbuild & Hret).
  injection Hret as <- <-. split; [done|].
  rewrite <- Hk, <- (build_additionalParamKey (build := build) (Some s.1) id w).
  by rewrite Hbuild.
Qed.

(** The loop of line 39 visits every selected id once, in order: with
    the length of the selection as fuel it is the recursion over the
    ids. *)
Lemma inner_loop_for_each ap ids fuel s w :
  obj_get ap cswServiceId_key = JArr ids -> loop_inv ap s w -> length ids <= fuel ->
  for_loop fuel inner_cond (inner_body build) 0 s w = for_each collect_step 0 ids s w.
Proof.
  intros Hget HI Hfuel. change (for_each collect_step 0 ids) with (for_each collect_step 0 (drop 0 ids)).
  apply (for_loop_for_each (loop_inv ap)); [| | |done|lia].
  - intros. by apply (inner_cond_run ap).
  - intros. by apply (inner_body_run ap ids).
  - intros. by eapply collect_step_inv.
Qed.

End Loops.

(** ** The other keys *)

Section Scan.
Context (build : Method) {B : PanelBuilder build}.
Implicit Types (o : JsObject) (ps : list Panel) (s : LoopState) (w : World).

(** At a key other than [cswServiceId] the loop only assigns
    [additionalParamKey]. *)
Lemma handler_step_other k s w :
  k <> cswServiceId_key ->
  handler_step build k s w = (Ok s, with_additionalParamKey (Some k) w).
Proof.
  intros Hne. unfold handler_step. comp_steps.
  by rewrite (proj2 (String.eqb_neq _ _) Hne).
Qed.

Lemma for_in_others ks s w :
  cswServiceId_key ∉ ks ->
  for_in ks (handler_step build) s w = (Ok s, with_additionalParamKey (last ks) w).
Proof.
  revert w. induction ks as [|k ks IH]; intros w Hnin; [done|].
  apply not_elem_of_cons in Hnin as [Hne Hnin]. simpl.
  erewrite bind_ok by (by apply handler_step_other).
  rewrite IH, with_additionalParamKey_twice, last_cons by done. by destruct (last ks).
Qed.

(** At [cswServiceId] the loop coerces the value and runs the counting
    loop over the selection. *)
Lemma handler_step_selection o ps w :
  cswServiceId_key ∈ obj_keys o ->
  handler_step build cswServiceId_key (o, ps) w =
  for_each (collect_step build) 0 (selection o) (coerced o, ps)
           (with_additionalParamKey (Some cswServiceId_key) w).
Proof.
  intros Hin. unfold handler_step. comp_steps.
  pose proof (coerce_to_array_run o) as Hcoerce.
  rewrite String.eqb_refl. comp_step.
  apply (inner_loop_for_each build (coerced o)); [by apply coerced_get|done|].
  rewrite selection_length_coerced by done. lia.
Qed.

(** The loop of lines 34-44 on a form with the field [cswServiceId]: the
    keys before it only assign [additionalParamKey], then the counting
    loop runs over the selection, then come the keys after it. *)
Lemma scan_split o w :
  wf_obj o -> cswServiceId_key ∈ obj_keys o ->
  exists ks1 ks2,
    obj_keys o = ks1 ++ cswServiceId_key :: ks2 /\ (cswServiceId_key ∉ ks2) /\
    for_in (obj_keys o) (handler_step build) (o, []) w =
    (s <- for_each (collect_step build) 0 (selection o) (coerced o, []) ;;
     for_in ks2 (handler_step build) s) (with_additionalParamKey (Some cswServiceId_key) w).
Proof.
  intros Hwf Hin. destruct (list_elem_of_split _ _ Hin) as (ks1 & ks2 & Hkeys).
  exists ks1, ks2. unfold wf_obj in Hwf. rewrite Hkeys in Hwf |- *.
  apply NoDup_app in Hwf as (_ & Hnin1 & [Hnin2 _]%NoDup_cons).
  split_and!; [done..|].
  rewrite for_in_app. erewrite bind_ok; last first.
  { apply for_in_others. intros Hin1. by apply (Hnin1 _ Hin1), list_elem_of_here. }
  simpl. unfold bind. rewrite handler_step_selection by done.
  by rewrite with_additionalParamKey_twice.
Qed.

Lemma selection_present o : selection o <> [] -> cswServiceId_key ∈ obj_keys o.
Proof.
  intros Hsel. destruct (decide (cswServiceId_key ∈ obj_keys o)); [done|].
  by rewrite selection_absent in Hsel.
Qed.

End Scan.

(** ** The panels of [CSWFilterWindow] *)

Section CSWFilterWindow.
Context (h : Host).
Implicit Types (o ap : JsObject) (ids : list JsVal) (ps : list Panel) (w : World).

(** The pushes of the counting loop: every call of [_getTabPanels] sets
    [key] and returns the panel of its id, or the first call throws. *)
Lemma collect_step_run j id ap ps w :
  collect_step (_getTabPanels h) j id (ap, ps) w =
  (match checked_boxes h with
   | Ok boxes => Ok (ap, ps ++ [panel_of boxes (Some ap) id])
   | Throw e => Throw e
   end, with_key (last (obj_keys ap)) w).
Proof.
  unfold collect_step, bind. simpl. rewrite getTabPanels_run.
  by destruct (checked_boxes h).
Qed.

Lemma collect_run j ids ap ps w :
  ids <> [] ->
  for_each (collect_step (_getTabPanels h)) j ids (ap, ps) w =
  (match checked_boxes h with
   | Ok boxes => Ok (ap, ps ++ (panel_of boxes (Some ap) <$> ids))
   | Throw e => Throw e
   end, with_key (last (obj_keys ap)) w).
Proof.
  revert j ps w. induction ids as [|id ids IH]; intros j ps w Hne; [done|].
  cbn [for_each]. unfold bind. rewrite collect_step_run.
  destruct (checked_boxes h) as [boxes|e] eqn:Hreg; [|done].
  destruct ids as [|id' ids]; [done|].
  rewrite IH by done. by rewrite with_key_idemp, <- app_assoc.
Qed.

(** The loop of lines 34-44 on a form with the field [cswServiceId] and
    a selection that is not empty. *)
Lemma scan_selection o w :
  wf_obj o -> selection o <> [] ->
  for_in (obj_keys o) (handler_step (_getTabPanels h)) (o, []) w =
  match checked_boxes h with
  | Ok boxes =>
      (Ok (coerced o, panels_of boxes o),
       with_additionalParamKey (last (obj_keys o)) (with_key (last (obj_keys o)) w))
  | Throw e =>
      (Throw e, with_key (last (obj_keys o)) (with_additionalParamKey (Some cswServiceId_key) w))
  end.
Proof.
  intros Hwf Hsel.
  destruct (scan_split (_getTabPanels h) o w Hwf (selection_present o Hsel))
    as (ks1 & ks2 & Hkeys & Hnin2 & ->).
  unfold bind. rewrite collect_run, coerced_keys, Hkeys by done.
  destruct (checked_boxes h) as [boxes|e]; simpl; [|done].
  rewrite for_in_others by done. unfold panels_of.
  rewrite (list_fmap_ext _ (panel_of boxes (Some o))) by (intros; apply panel_of_coerced).
  rewrite with_key_with_additionalParamKey, !with_additionalParamKey_twice.
  rewrite last_app, last_cons. by destruct (last ks2), (last ks1).
Qed.

(** The loop on a form whose selection is empty: no call of
    [_getTabPanels]. *)
Lemma scan_empty o w :
  wf_obj o -> selection o = [] ->
  for_in (obj_keys o) (handler_step (_getTabPanels h)) (o, []) w =
  (Ok (coerced o, []), with_additionalParamKey (last (obj_keys o)) w).
Proof.
  intros Hwf Hsel. destruct (decide (cswServiceId_key ∈ obj_keys o)) as [Hin|Hnin].
  - destruct (scan_split (_getTabPanels h) o w Hwf Hin) as (ks1 & ks2 & Hkeys & Hnin2 & ->).
    unfold bind. rewrite Hsel, Hkeys. simpl. rewrite for_in_others by done.
    rewrite !with_additionalParamKey_twice, last_app, last_cons.
    by destruct (last ks2).
  - rewrite for_in_others by done. unfold coerced.
    by rewrite bool_decide_eq_false_2.
Qed.

End CSWFilterWindow.

(** ** The handler *)

(** The world after the loop of lines 34-44: [additionalParamKey] is the
    last key of the form, and [key] too when [_getTabPanels] was
    called. *)
Definition scanned (o : JsObject) (w : World) : World :=
  with_additionalParamKey (last (obj_keys o))
    (match selection o with
     | [] => w
     | _ :: _ => with_key (last (obj_keys o)) w
     end).

Lemma announce_run ps w : announce ps w = (Ok tt, with_events (announcement ps) w).
Proof.
  unfold announce. comp_steps. rewrite emit_run. by world_simpl.
Qed.

Lemma scanned_trace o w : trace (scanned o w) = trace w.
Proof. unfold scanned. destruct (selection o); by world_simpl. Qed.

#[export] Hint Rewrite scanned_trace : js.

(** The handler on a valid form whose loop returned. *)
Lemma handler_after_scan (h : Host) (build : Method) s w w1 :
  isValid h = true ->
  for_in (obj_keys (getValues h)) (handler_step build) (getValues h, []) w = (Ok s, w1) ->
  handler h build w = (Ok tt, with_events (announcement s.2) w1).
Proof.
  intros Hv Hscan. unfold handler. rewrite Hv.
  erewrite bind_ok by done. apply announce_run.
Qed.

(** C22: on an invalid form the handler does nothing: no panel is built,
    no call is made on a collaborator and no variable is assigned,
    whatever method [this._getTabPanels] is. *)
Theorem handler_invalid (h : Host) (build : Method) (w : World) :
  isValid h = false -> handler h build w = (Ok tt, w).
Proof. intros Hv. unfold handler. by rewrite Hv. Qed.

Lemma handler_invalid_witness :
  handler host_invalid (_getTabPanels host_invalid) initial_world = (Ok tt, initial_world).
Proof. apply (handler_invalid host_invalid). reflexivity. Defined.

(** The handler on a valid form with the registry group present. *)
Lemma handler_run_valid (h : Host) (boxes : list Checkbox) (w : World) :
  isValid h = true -> wf_obj (getValues h) -> checked_boxes h = Ok boxes ->
  CSWFilterWindow_handler h w =
  (Ok tt, with_events (announcement (panels_of boxes (getValues h))) (scanned (getValues h) w)).
Proof.
  intros Hv Hwf Hreg. unfold CSWFilterWindow_handler, scanned, panels_of.
  destruct (selection (getValues h)) as [|id ids] eqn:Hsel.
  - erewrite handler_after_scan by (done || by apply scan_empty). done.
  - assert (selection (getValues h) <> []) as Hne by (by rewrite Hsel).
    pose proof (scan_selection h _ w Hwf Hne) as Hscan. rewrite Hreg in Hscan.
    rewrite (handler_after_scan _ _ _ _ _ Hv Hscan). unfold panels_of. by rewrite Hsel.
Qed.

(** C2: on a valid form and with the registry group present, the handler
    returns normally and makes exactly four calls, in this order: it
    fires [filterselectcomplete] with the panels, creates the selection
    window with the same panels, shows it and closes the dialog.  The
    panels are one per selected id, in selection order and with
    duplicates kept, each the panel [_getTabPanels] builds for that id
    from the submitted values. *)
Theorem handler_valid (h : Host) (boxes : list Checkbox) (w : World) :
  isValid h = true -> wf_obj (getValues h) ->
  getCmp h "registryTabCheckboxGroup" = Some (CheckboxGroup boxes) ->
  exists ps w',
    CSWFilterWindow_handler h w = (Ok tt, w') /\
    trace w' = trace w ++
      [FireEvent "filterselectcomplete" ps;
       NewSelectionWindow {| sw_title := "CSW Record Selection"; resultpanels := ps |};
       ShowSelectionWindow; CloseWindow] /\
    Forall2 (fun p id => (_getTabPanels h (Some (getValues h)) id w).1 = Ok p)
            ps (selection (getValues h)).
Proof.
  intros Hv Hwf Hcmp.
  assert (checked_boxes h = Ok boxes) as Hreg.
  { unfold checked_boxes, getChecked. by rewrite Hcmp. }
  eexists _, _. split; [by apply handler_run_valid|].
  world_simpl. split; [done|].
  apply Forall2_fmap_l, Forall_Forall2_diag, Forall_forall. intros id _.
  unfold compose. by rewrite getTabPanels_run, Hreg.
Qed.

Lemma handler_valid_witness :
  exists ps w',
    CSWFilterWindow_handler host_B initial_world = (Ok tt, w') /\
    trace w' = trace initial_world ++
      [FireEvent "filterselectcomplete" ps;
       NewSelectionWindow {| sw_title := "CSW Record Selection"; resultpanels := ps |};
       ShowSelectionWindow; CloseWindow] /\
    Forall2 (fun p id => (_getTabPanels host_B (Some (getValues host_B)) id initial_world).1 = Ok p)
            ps (selection (getValues host_B)).
Proof.
  apply (handler_valid host_B boxes_one); [reflexivity | | reflexivity].
  apply (bool_decide_unpack _). vm_compute. exact I.
Defined.

Lemma handler_empty_scanned (h : Host) (w : World) :
  isValid h = true -> wf_obj (getValues h) -> selection (getValues h) = [] ->
  CSWFilterWindow_handler h w =
  (Ok tt, with_events (announcement []) (scanned (getValues h) w)).
Proof.
  intros Hv Hwf Hsel. unfold CSWFilterWindow_handler, scanned. rewrite Hsel.
  by erewrite handler_after_scan by (done || by apply scan_empty).
Qed.

(** C21: when no service is selected the handler never calls
    [_getTabPanels]: it fires the event with no panel and closes the
    dialog even if the registry group does not exist. *)
Theorem handler_empty_selection (h : Host) (w : World) :
  isValid h = true -> wf_obj (getValues h) -> selection (getValues h) = [] ->
  CSWFilterWindow_handler h w =
  (Ok tt, with_events (announcement []) (scanned (getValues h) w)).
Proof.
  intros Hv Hwf Hsel. unfold CSWFilterWindow_handler, scanned. rewrite Hsel.
  by erewrite handler_after_scan by (done || by apply scan_empty).
Qed.

Lemma handler_empty_selection_witness :
  CSWFilterWindow_handler host_none initial_world =
  (Ok tt, with_events (announcement []) (scanned form_none initial_world)).
Proof.
  apply (handler_empty_selection host_none); [reflexivity | | reflexivity].
  apply (bool_decide_unpack _). vm_compute. exact I.
Defined.

(** C5: when a service is selected and the registry lookup throws, the
    handler throws the same error at the first call of [_getTabPanels]:
    no event is fired, no window is created and the dialog stays open;
    the two globals were assigned. *)
Theorem handler_registry_missing (h : Host) (e : JsError) (w : World) :
  isValid h = true -> wf_obj (getValues h) -> selection (getValues h) <> [] ->
  checked_boxes h = Throw e ->
  CSWFilterWindow_handler h w =
  (Throw e, with_key (last (obj_keys (getValues h)))
              (with_additionalParamKey (Some cswServiceId_key) w)).
Proof.
  intros Hv Hwf Hsel Hreg. unfold CSWFilterWindow_handler, handler. rewrite Hv.
  erewrite bind_fail; [done|]. by rewrite scan_selection, Hreg.
Qed.

Lemma handler_registry_missing_witness :
  CSWFilterWindow_handler host_unregistered initial_world =
  (Throw TypeError, with_key (Some "cswServiceId")
                      (with_additionalParamKey (Some "cswServiceId") initial_world)).
Proof.
  apply (handler_registry_missing host_unregistered TypeError);
    [reflexivity | | discriminate | reflexivity].
  apply (bool_decide_unpack _). vm_compute. exact I.
Defined.

(** ** The calls on collaborators, for any method *)

Section Discipline.
Context (build : Method) {B : PanelBuilder build}.

(** The loop of lines 34-44 makes no call on a collaborator, returned
    or thrown, whatever [this._getTabPanels] is, as long as that method
    makes none. *)
Lemma handler_step_trace (t : list Event) k s :
  preserves (fun w => trace w = t) (handler_step build k s).
Proof.
  pose proof (fun o id => preserves_trace t (build o id) (build_trace o id)) as Hbuild.
  unfold handler_step, coerce_to_array.
  preserves_steps; unfold inner_cond, inner_body; preserves_steps.
Qed.

Lemma scan_trace (h : Host) w :
  trace (for_in (obj_keys (getValues h)) (handler_step build) (getValues h, []) w).2 = trace w.
Proof.
  apply (preserves_for_in (fun w' => trace w' = trace w)); [|done].
  intros k s. apply handler_step_trace.
Qed.

(** What a run of the handler adds to the trace: nothing, or the four
    calls of one announcement. *)
Lemma handler_calls (h : Host) w :
  trace (handler h build w).2 = trace w \/
  exists ps, trace (handler h build w).2 = trace w ++ announcement ps.
Proof.
  unfold handler. destruct (isValid h); [|by left].
  pose proof (scan_trace h w) as Ht. unfold bind.
  destruct (for_in _ _ _ w) as [[s|e] w1]; simpl in Ht; [|by left].
  right. exists s.2. rewrite announce_run. world_simpl. by rewrite Ht.
Qed.

End Discipline.

(** C8: whatever method [this._getTabPanels] is, if it makes no call on a
    collaborator then the handler makes either no call at all (the form
    is invalid, or the method threw) or exactly the four calls of the
    announcement, after every panel was built: an exception never
    leaves the dialog closed or an event fired with a partial list. *)
Theorem handler_all_or_nothing (h : Host) (build : Method) (w : World) :
  PanelBuilder build ->
  match (handler h build w).1 with
  | Throw _ => trace (handler h build w).2 = trace w
  | Ok _ =>
      (isValid h = false /\ (handler h build w).2 = w) \/
      (isValid h = true /\ exists ps, trace (handler h build w).2 = trace w ++ announcement ps)
  end.
Proof.
  intros B. unfold handler. destruct (isValid h); [|by left].
  pose proof (scan_trace build h w) as Ht.
  unfold bind. destruct (for_in _ _ _ w) as [[s|e] w1]; simpl in Ht; [|done].
  rewrite announce_run. cbn [fst snd]. right. split; [done|]. exists s.2.
  world_simpl. by rewrite Ht.
Qed.

Lemma handler_all_or_nothing_witness :
  match (handler host_unregistered (_getTabPanels host_unregistered) initial_world).1 with
  | Throw _ =>
      trace (handler host_unregistered (_getTabPanels host_unregistered) initial_world).2
      = trace initial_world
  | Ok _ =>
      (isValid host_unregistered = false /\
       (handler host_unregistered (_getTabPanels host_unregistered) initial_world).2 = initial_world) \/
      (isValid host_unregistered = true /\
       exists ps, trace (handler host_unregistered (_getTabPanels host_unregistered) initial_world).2
                  = trace initial_world ++ announcement ps)
  end.
Proof.
  apply (handler_all_or_nothing host_unregistered (_getTabPanels host_unregistered)).
  apply getTabPanels_builder.
Defined.

(** C14: the counting loop of line 39 ends after one turn per selected
    id: while [additionalParamKey] names the service field and the field
    holds an array, any fuel of at least the length of the array gives
    the result of exactly that length, which is one call of
    [this._getTabPanels] per element, in order, for any method that
    does not assign [additionalParamKey]. *)
Theorem inner_loop_terminates (build : Method) (ap : JsObject) (ids : list JsVal)
    (ps : list Panel) (fuel : nat) (w : World) :
  PanelBuilder build ->
  obj_get ap "cswServiceId" = JArr ids ->
  g_additionalParamKey w = Some "cswServiceId" ->
  length ids <= fuel ->
  for_loop fuel inner_cond (inner_body build) 0 (ap, ps) w
  = for_loop (length ids) inner_cond (inner_body build) 0 (ap, ps) w /\
  for_loop fuel inner_cond (inner_body build) 0 (ap, ps) w
  = for_each (fun _ id s => p <- build (Some s.1) id ;; ret (s.1, s.2 ++ [p])) 0 ids (ap, ps) w.
Proof.
  intros B Hget Hk Hfuel.
  rewrite !(inner_loop_for_each build ap ids) by (done || by split). done.
Qed.

Lemma inner_loop_terminates_witness :
  for_loop 5 inner_cond (inner_body (_getTabPanels host_B)) 0 (form_B, [])
           (with_additionalParamKey (Some "cswServiceId") initial_world)
  = for_loop (length [JStr "srv1"; JStr "srv2"]) inner_cond
             (inner_body (_getTabPanels host_B)) 0 (form_B, [])
             (with_additionalParamKey (Some "cswServiceId") initial_world) /\
  for_loop 5 inner_cond (inner_body (_getTabPanels host_B)) 0 (form_B, [])
           (with_additionalParamKey (Some "cswServiceId") initial_world)
  = for_each (fun _ id s => p <- _getTabPanels host_B (Some s.1) id ;; ret (s.1, s.2 ++ [p])) 0
             [JStr "srv1"; JStr "srv2"] (form_B, [])
             (with_additionalParamKey (Some "cswServiceId") initial_world).
Proof.
  apply (inner_loop_terminates (_getTabPanels host_B) form_B [JStr "srv1"; JStr "srv2"]);
    [apply getTabPanels_builder | reflexivity | reflexivity | simpl; lia].
Defined.

(** C26: the loop of lines 34-44 updates the form's values in place only
    at [cswServiceId]: when it returns, the object has the same keys in
    the same order, every other field has its value, and the service
    field holds the array of the selected ids (a scalar was wrapped, an
    array was kept). *)
Theorem handler_coerces_in_place (h : Host) (o : JsObject) (w : World) (s : LoopState) :
  wf_obj o ->
  (for_in (obj_keys o) (handler_step (_getTabPanels h)) (o, []) w).1 = Ok s ->
  obj_keys s.1 = obj_keys o /\
  (forall k, k <> "cswServiceId" -> obj_get s.1 k = obj_get o k) /\
  ("cswServiceId" ∈ obj_keys o -> obj_get s.1 "cswServiceId" = JArr (selection o)).
Proof.
  intros Hwf Hrun.
  assert (s.1 = coerced o) as ->.
  { destruct (selection o) as [|id ids] eqn:Hsel.
    - rewrite scan_empty in Hrun by done. by injection Hrun as <-.
    - rewrite scan_selection in Hrun by (done || by rewrite Hsel).
      destruct (checked_boxes h); [by injection Hrun as <- | done]. }
  split_and!; [apply coerced_keys | intros; by apply coerced_get_ne | apply coerced_get].
Qed.

Lemma handler_coerces_in_place_witness :
  obj_keys (coerced form_A, panels_of boxes_one form_A).1 = obj_keys form_A /\
  (forall k, k <> "cswServiceId" ->
     obj_get (coerced form_A, panels_of boxes_one form_A).1 k = obj_get form_A k) /\
  ("cswServiceId" ∈ obj_keys form_A ->
     obj_get (coerced form_A, panels_of boxes_one form_A).1 "cswServiceId" = JArr (selection form_A)).
Proof.
  apply (handler_coerces_in_place host_A form_A initial_world); [|reflexivity].
  apply (bool_decide_unpack _). vm_compute. exact I.
Defined.

(** C29: the handler leaves its loop variables behind as globals: after a
    normal return on a valid form [additionalParamKey] holds the last
    key of the form, and [key] holds it too as soon as one service was
    selected; with no selection [key] is not touched. *)
Theorem handler_leaks_globals (h : Host) (w w' : World) :
  isValid h = true -> wf_obj (getValues h) ->
  CSWFilterWindow_handler h w = (Ok tt, w') ->
  g_additionalParamKey w' = from_option Some (g_additionalParamKey w) (last (obj_keys (getValues h))) /\
  g_key w' = match selection (getValues h) with
             | [] => g_key w
             | _ :: _ => from_option Some (g_key w) (last (obj_keys (getValues h)))
             end.
Proof.
  intros Hv Hwf Hrun.
  destruct (selection (getValues h)) as [|id ids] eqn:Hsel.
  - rewrite handler_empty_scanned in Hrun by done. injection Hrun as <-.
    unfold scanned. rewrite Hsel. by destruct (last _).
  - destruct (checked_boxes h) as [boxes|e] eqn:Hreg.
    + rewrite (handler_run_valid h boxes) in Hrun by done. injection Hrun as <-.
      unfold scanned. rewrite Hsel. by destruct (last _).
    + pose proof (scan_selection h _ w Hwf ltac:(by rewrite Hsel)) as Hscan.
      rewrite Hreg in Hscan. unfold CSWFilterWindow_handler, handler in Hrun.
      rewrite Hv in Hrun. by erewrite bind_fail in Hrun.
Qed.

Lemma handler_leaks_globals_witness :
  g_additionalParamKey (CSWFilterWindow_handler host_A initial_world).2
  = from_option Some (g_additionalParamKey initial_world) (last (obj_keys (getValues host_A))) /\
  g_key (CSWFilterWindow_handler host_A initial_world).2
  = match selection (getValues host_A) with
    | [] => g_key initial_world
    | _ :: _ => from_option Some (g_key initial_world) (last (obj_keys (getValues host_A)))
    end.
Proof.
  apply (handler_leaks_globals host_A initial_world); [reflexivity | | reflexivity].
  apply (bool_decide_unpack _). vm_compute. exact I.
Defined.
