(* ===== verification/Spec.v ===== *)
(** * The specification of the fan-out

    Sections 3 and 4 of the repository's spec, as pure functions: the
    data model (form values, parameter lists, registry entries, search
    tasks), the parameter denormaliser of section 4.1 and the task
    builder of section 4.2.  Nothing here is taken from the code; the
    file [Refinement] proves that the code implements these functions.

    The spec calls the reserved field [serviceId] and leaves the text of
    the fallback title open, so both are parameters here. *)

From stdpp Require Import strings.
From stdpp Require Import base option list.

(** ** Data model (section 3) *)

(** A value of the form: a scalar string or an ordered sequence of
    strings. *)
Inductive FieldValue : Type :=
| Scalar (s : string)
| Sequence (l : list string).

#[export] Instance FieldValue_eq_dec : EqDecision FieldValue.
Proof. solve_decision. Defined.

(** The submitted form, in insertion order. *)
Definition FormValues : Type := list (string * FieldValue).

(** Two parallel sequences. *)
Record ParameterList : Type := {
  names : list string;
  values : list FieldValue;
}.

Record ServiceRegistryEntry : Type := {
  identifier : string;
  label : string;
}.

(** The output unit.  The data source is determined by the parameters and
    the page size; it is not loaded. *)
Record SearchTask : Type := {
  task_title : string;
  parameters : ParameterList;
  task_pageSize : nat;
}.

#[export] Instance ParameterList_eq_dec : EqDecision ParameterList.
Proof. solve_decision. Defined.
#[export] Instance SearchTask_eq_dec : EqDecision SearchTask.
Proof. solve_decision. Defined.

(** The value of a field, if the form has it. *)
Fixpoint field (allValues : FormValues) (name : string) : option FieldValue :=
  match allValues with
  | [] => None
  | (k, v) :: rest => if String.eqb name k then Some v else field rest name
  end.

Section Spec.
Variable reserved : string.   (* the name of the service-identifier field *)
Variable fallback : string.   (* the title of a task whose id is not in the registry *)

(** ** Parameter denormaliser (section 4.1) *)

(** Present and non-empty. *)
Definition is_present (v : FieldValue) : bool :=
  match v with
  | Scalar s => negb (String.eqb s "")
  | Sequence l => negb (bool_decide (l = []))
  end.

Definition is_parameter (kv : string * FieldValue) : bool :=
  is_present kv.2 && negb (String.eqb kv.1 reserved).

Definition denormalize (allValues : FormValues) (serviceId : string) : ParameterList :=
  let kept := List.filter is_parameter allValues in
  {| names := kept.*1 ++ [reserved];
     values := kept.*2 ++ [Scalar serviceId] |}.

(** ** Task builder (section 4.2) *)

(** A scalar selection is a sequence of one. *)
Definition normalize (v : FieldValue) : list string :=
  match v with
  | Scalar s => [s]
  | Sequence l => l
  end.

(** First match wins; a miss gives the fallback title. *)
Definition resolve_label (registry : list ServiceRegistryEntry) (id : string) : string :=
  match List.find (fun e => String.eqb (identifier e) id) registry with
  | Some e => label e
  | None => fallback
  end.

Definition build_task (allValues : FormValues) (registry : list ServiceRegistryEntry)
    (id : string) : SearchTask :=
  {| task_title := resolve_label registry id;
     parameters := denormalize allValues id;
     task_pageSize := 35 |}.

(** One task per selected id, in selection order; no task when nothing
    is selected. *)
Definition buildTasks (allValues : FormValues) (registry : list ServiceRegistryEntry)
    : list SearchTask :=
  match field allValues reserved with
  | Some v => build_task allValues registry <$> normalize v
  | None => []
  end.

(** ** Properties of the specification (section 8) *)

Lemma denormalize_parallel allValues id :
  length (names (denormalize allValues id)) = length (values (denormalize allValues id)).
Proof. simpl. by rewrite !length_app, !length_fmap. Qed.

Lemma buildTasks_length allValues registry v :
  field allValues reserved = Some v ->
  length (buildTasks allValues registry) = length (normalize v).
Proof. intros Hv. unfold buildTasks. by rewrite Hv, length_fmap. Qed.

End Spec.
