(* ===== verification/Refinement.v ===== *)
(** * The code implements the specification

    The forms of the specification ([Spec.FormValues]) are embedded into
    the objects of the model, the registry entries into checked boxes,
    and a panel implements a task when it has the task's title, sends
    the task's parameters and has its page size, unloaded.  The theorem:
    on every form of the specification the handler announces panels that
    implement, one by one and in order, the tasks [buildTasks] specifies
    for the reserved name [cswServiceId] and the fallback title
    ["Error retrieving title"]. *)

From stdpp Require Import strings.
From stdpp Require Import base option list.
From S2P Require Import Prelude JsValue Panel World Fixtures Denormalise TabPanels Handler Spec.

(** ** The embedding *)

Definition js_of_value (v : FieldValue) : JsVal :=
  match v with
  | Scalar s => JStr s
  | Sequence l => JArr (JStr <$> l)
  end.

Definition js_of_form (m : FormValues) : JsObject :=
  prod_map id js_of_value <$> m.

Definition box_of_entry (e : ServiceRegistryEntry) : Checkbox :=
  {| inputValue := identifier e; boxLabel := label e |}.

(** A panel implements a task. *)
Definition panel_implements (p : Panel) (t : SearchTask) : Prop :=
  title p = task_title t /\
  panel_keys p = names (parameters t) /\
  panel_values p = js_of_value <$> values (parameters t) /\
  pageSize (store p) = task_pageSize t /\
  autoLoad (store p) = false.

(** ** The embedding and the primitives *)

Section Embedding.
Implicit Types (m : FormValues) (v : FieldValue) (k : string).

Lemma obj_keys_js_of_form m : obj_keys (js_of_form m) = m.*1.
Proof.
  unfold obj_keys, js_of_form. rewrite <- list_fmap_compose.
  apply list_fmap_ext. by intros _ [??] _.
Qed.

Lemma obj_get_js_of_form m k :
  obj_get (js_of_form m) k = from_option js_of_value JUndefined (field m k).
Proof.
  unfold obj_get. induction m as [|[k' v'] m IH]; [done|]. simpl. by destruct (String.eqb k k').
Qed.

Lemma field_is_Some m k : is_Some (field m k) <-> k ∈ m.*1.
Proof.
  induction m as [|[k' v'] m IH]; simpl.
  - split; [by intros [??] | by intros ?%elem_of_nil].
  - rewrite elem_of_cons. destruct (String.eqb_spec k k') as [->|Hne].
    + split; [by left | by eexists].
    + rewrite IH. split; [by right | by intros [?|?]].
Qed.

Lemma nonempty_js_of_value v : nonempty (js_of_value v) = is_present v.
Proof.
  destruct v as [s|l]; simpl; [done|]. f_equal.
  destruct l; [|done]. by rewrite !bool_decide_eq_true_2.
Qed.

Lemma keeps_js_of_value k v :
  keeps (js_of_value v) k = is_parameter cswServiceId_key (k, v).
Proof. unfold keeps, is_parameter. by rewrite nonempty_js_of_value. Qed.

(** The entries the code keeps are the parameters of the specification. *)
Lemma kept_js_of_form m :
  NoDup m.*1 ->
  kept (js_of_form m) = prod_map id js_of_value <$> List.filter (is_parameter cswServiceId_key) m.
Proof.
  intros Hnd. rewrite kept_filter by (unfold wf_obj; by rewrite obj_keys_js_of_form).
  clear Hnd. unfold js_of_form. induction m as [|[k v] m IH]; [done|].
  csimpl. rewrite keeps_js_of_value. destruct (is_parameter _ _); csimpl; by rewrite IH.
Qed.

(** The selection of the code is the normalised selection. *)
Lemma selection_js_of_form m :
  selection (js_of_form m) =
  JStr <$> from_option normalize [] (field m cswServiceId_key).
Proof.
  unfold selection. rewrite obj_keys_js_of_form, obj_get_js_of_form.
  destruct (field m cswServiceId_key) as [[s|l]|] eqn:Hf.
  - rewrite bool_decide_eq_true_2; [done|]. apply field_is_Some. by rewrite Hf.
  - rewrite bool_decide_eq_true_2; [done|]. apply field_is_Some. by rewrite Hf.
  - rewrite bool_decide_eq_false_2; [done|]. rewrite <- field_is_Some, Hf. by intros [??].
Qed.

Lemma first_match_entries (registry : list ServiceRegistryEntry) (id : string) :
  first_match (box_of_entry <$> registry) (JStr id)
  = box_of_entry <$> List.find (fun e => String.eqb (identifier e) id) registry.
Proof.
  induction registry as [|e registry IH]; [done|].
  rewrite fmap_cons, first_match_cons, IH. simpl. by destruct (String.eqb _ _).
Qed.

End Embedding.

(** ** The refinement *)

Lemma fmap_fst_prod_map {A B C} (g : B -> C) (l : list (A * B)) :
  (prod_map id g <$> l).*1 = l.*1.
Proof. rewrite <- list_fmap_compose. apply list_fmap_ext. by intros _ [??] _. Qed.

Lemma fmap_snd_prod_map {A B C} (g : B -> C) (l : list (A * B)) :
  (prod_map id g <$> l).*2 = g <$> l.*2.
Proof. rewrite <- !list_fmap_compose. apply list_fmap_ext. by intros _ [??] _. Qed.

(** The panel of the code for one selected id implements the task of
    the specification for that id. *)
Lemma panel_of_implements (m : FormValues) (registry : list ServiceRegistryEntry) (id : string) :
  NoDup m.*1 ->
  panel_implements (panel_of (box_of_entry <$> registry) (Some (js_of_form m)) (JStr id))
                   (build_task cswServiceId_key fallback_title m registry id).
Proof.
  intros Hnd. unfold panel_implements.
  rewrite panel_of_keys, panel_of_values. cbn [from_option]. unfold kept_keys, kept_values.
  rewrite kept_js_of_form, fmap_fst_prod_map, fmap_snd_prod_map by done.
  split_and!; [|done| |done..].
  - cbn [panel_of tab_panel title build_task task_title]. rewrite first_match_entries.
    unfold resolve_label. by destruct (List.find _ _).
  - cbn [build_task parameters denormalize values]. by rewrite fmap_app.
Qed.

(** C1: the handler implements the task builder of the specification: on
    a valid form of strings and string sequences (each field once) and
    with the registry entries as the checked boxes, it returns normally,
    and the panels it announces implement, one by one and in order, the
    tasks [buildTasks] specifies for the field name ["cswServiceId"] and
    the fallback title ["Error retrieving title"]: same titles, same
    parameter names and values, page size 35, not loaded. *)
Theorem handler_refines_buildTasks (h : Host) (m : FormValues)
    (registry : list ServiceRegistryEntry) (w : World) :
  isValid h = true ->
  getValues h = js_of_form m ->
  NoDup m.*1 ->
  getCmp h "registryTabCheckboxGroup" = Some (CheckboxGroup (box_of_entry <$> registry)) ->
  exists panels w',
    CSWFilterWindow_handler h w = (Ok tt, w') /\
    trace w' = trace w ++ announcement panels /\
    Forall2 panel_implements panels
            (buildTasks "cswServiceId" "Error retrieving title" m registry).
Proof.
  intros Hv Hform Hnd Hcmp.
  assert (checked_boxes h = Ok (box_of_entry <$> registry)) as Hreg.
  { unfold checked_boxes, getChecked. by rewrite Hcmp. }
  assert (wf_obj (getValues h)) as Hwf.
  { unfold wf_obj. by rewrite Hform, obj_keys_js_of_form. }
  eexists _, _. split; [by apply handler_run_valid|].
  world_simpl. split; [done|].
  unfold panels_of, buildTasks. rewrite Hform, selection_js_of_form.
  change (field m "cswServiceId") with (field m cswServiceId_key).
  destruct (field m cswServiceId_key) as [v|]; [|constructor]. cbn [from_option].
  rewrite <- list_fmap_compose. apply Forall2_fmap, Forall_Forall2_diag, Forall_forall.
  intros id _. by apply panel_of_implements.
Qed.

(** Scenario B of the specification, with the field name of the code. *)
Definition spec_form_B : FormValues :=
  [("keyword", Scalar ""); ("cswServiceId", Sequence ["srv1"; "srv2"])].

Definition spec_registry : list ServiceRegistryEntry :=
  [{| identifier := "srv1"; label := "Registry One" |}].

Lemma handler_refines_buildTasks_witness :
  exists panels w',
    CSWFilterWindow_handler host_B initial_world = (Ok tt, w') /\
    trace w' = trace initial_world ++ announcement panels /\
    Forall2 panel_implements panels
            (buildTasks "cswServiceId" "Error retrieving title" spec_form_B spec_registry).
Proof.
  apply (handler_refines_buildTasks host_B spec_form_B spec_registry initial_world);
    [reflexivity | reflexivity | | reflexivity].
  apply (bool_decide_unpack _). vm_compute. exact I.
Defined.
