(* ===== verification/Constructor.v ===== *)
(** * The constructor and the Search button

    The constructor of [CSWFilterWindow.js] (lines 6-63): it registers
    the event [filterselectcomplete], creates the form panel, applies
    the literal of [Dialog.dialog_config] to its argument and calls the
    constructor of [Ext.window.Window] with the same object.  The three
    calls on collaborators go to the trace of [World].

    A click on a button calls the button's handler with [this] bound to
    the button's [scope], or to the button when it has none: that is
    what [fireHandler] models, and [method_getTabPanels] is the lookup
    [this._getTabPanels] on that receiver.  The theorems say what the
    parent constructor receives, that the only button of the dialog runs
    the handler of [Handler] with the method of the class, and what
    construction followed by a click does as a whole.

    The dispatch of a click and what a window makes of its [buttons]
    ([fireHandler], [buttons_of]) are behaviour of Ext JS, as is
    [Ext.apply]: they are written from the library's documentation, not
    from lines of the source file. *)

From stdpp Require Import strings.
From stdpp Require Import base option list.
From S2P Require Import Prelude JsValue Panel Dialog World Fixtures Denormalise TabPanels Handler.

(** ** The code *)

(** [constructor(cfg)]: [None] is a call without argument.  The value
    returned is the caller's object after the call, which
    [Ext.apply] updated in place. *)
Definition constructor (cfg : option Config) : JS (option Config) :=
  emit (AddEvents ["filterselectcomplete"]) ;;
  emit (NewFilterFormPanel {| fp_name := "test" |}) ;;
  (let cswFilterFormPanel := {| fp_name := "test" |} in
   let cfg' := Ext_apply cfg (dialog_config cswFilterFormPanel) in
   emit (CallParent cfg') ;;
   ret cfg').

(** [this._getTabPanels] of line 41 on the receiver [this]: the method
    of the class on the window; on a button the property is undefined,
    and calling it throws a [TypeError]. *)
Definition method_getTabPanels (h : Host) (this : Receiver) : Method :=
  match this with
  | TheWindow => _getTabPanels h
  | TheButton => fun _ _ => throw TypeError
  end.

(** A call of a function literal of the source with [this] bound to a
    receiver. *)
Definition call_closure (c : Closure) (this : Receiver) (h : Host) : JS unit :=
  match c with
  | SearchHandler => handler h (method_getTabPanels h this)
  end.

(** A click on a button: [handler.call(scope || button, button)]. *)
Definition fireHandler (b : ButtonCfg) (h : Host) : JS unit :=
  call_closure (btn_handler b) (default TheButton (btn_scope b)) h.

(** The buttons of a window created with the configuration [cfg]. *)
Definition buttons_of (cfg : option Config) : list ButtonCfg :=
  match cfg ≫= (fun o => obj_lookup o "buttons") with
  | Some (CButtons bs) => bs
  | _ => []
  end.

(** A click on the button with the label [text] of a window created
    with [cfg]; nothing happens when it has no such button. *)
Definition click (text : string) (cfg : option Config) (h : Host) : JS unit :=
  match find (fun b => String.eqb (btn_text b) text) (buttons_of cfg) with
  | Some b => fireHandler b h
  | None => ret tt
  end.

(** The dialog is created with [cfg], then the user presses Search. *)
Definition create_and_search (cfg : option Config) (h : Host) : JS unit :=
  cfg' <- constructor cfg ;; click "Search" cfg' h.

(** ** The reference *)

(** The object the parent constructor receives for the caller's object
    [o]. *)
Definition configured (o : Config) : Config :=
  apply_props o (dialog_config {| fp_name := "test" |}).

(** The calls of the constructor. *)
Definition construction (cfg : option Config) : list Event :=
  [AddEvents ["filterselectcomplete"];
   NewFilterFormPanel {| fp_name := "test" |};
   CallParent (configured <$> cfg)].

(** The names of the properties the constructor sets. *)
Definition dialog_keys : list string :=
  ["title"; "layout"; "modal"; "width"; "height"; "items"; "buttons"].

(** ** Lemmas *)

Lemma constructor_run cfg w :
  constructor cfg w = (Ok (configured <$> cfg), with_events (construction cfg) w).
Proof.
  unfold constructor. comp_steps. unfold ret. world_simpl. by destruct cfg.
Qed.

Lemma configured_lookup o k v :
  (k, v) ∈ dialog_config {| fp_name := "test" |} -> obj_lookup (configured o) k = Some v.
Proof. apply apply_props_lookup. auto with js. Qed.

Lemma buttons_of_configured o : buttons_of (Some (configured o)) = [search_button].
Proof.
  unfold buttons_of. simpl.
  rewrite (configured_lookup o "buttons" (CButtons [search_button])); [done|].
  apply (bool_decide_unpack _). by vm_compute.
Qed.

(** ** The constructor *)

(** C10: the constructor on a configuration object returns normally and
    makes three calls in this order: it registers the event
    [filterselectcomplete], creates the form panel with the name
    [test], and calls the parent constructor with the caller's object,
    in which the title is [Enter Parameters], the layout [fit], the
    window modal and 500 by 500, the form panel the only item and the
    Search button the only button, whatever the caller had put under
    these names; every other property of the caller's object is kept,
    and no global variable is assigned. *)
Theorem constructor_config (o : Config) (w : World) :
  wf_obj o ->
  exists o' w',
    constructor (Some o) w = (Ok (Some o'), w') /\
    trace w' = trace w ++ [AddEvents ["filterselectcomplete"];
                           NewFilterFormPanel {| fp_name := "test" |};
                           CallParent (Some o')] /\
    g_additionalParamKey w' = g_additionalParamKey w /\ g_key w' = g_key w /\
    wf_obj o' /\
    obj_lookup o' "title" = Some (CJs (JStr "Enter Parameters")) /\
    obj_lookup o' "layout" = Some (CJs (JStr "fit")) /\
    obj_lookup o' "modal" = Some (CJs (JBool true)) /\
    obj_lookup o' "width" = Some (CJs (JNum 500)) /\
    obj_lookup o' "height" = Some (CJs (JNum 500)) /\
    obj_lookup o' "items" = Some (CItems [{| fp_name := "test" |}]) /\
    obj_lookup o' "buttons" = Some (CButtons [search_button]) /\
    (forall k, k ∉ dialog_keys -> obj_lookup o' k = obj_lookup o k).
Proof.
  intros Hwf. exists (configured o), (with_events (construction (Some o)) w).
  split; [apply constructor_run|]. world_simpl.
  split_and!; try done; try (apply configured_lookup, (bool_decide_unpack _); by vm_compute).
  - by apply wf_apply_props.
  - intros k Hk. by apply apply_props_lookup_other.
Qed.

Lemma constructor_config_witness :
  exists o' w',
    constructor (Some [("title", CJs (JStr "Mine")); ("id", CJs (JStr "w1"))]) initial_world
      = (Ok (Some o'), w') /\
    trace w' = trace initial_world ++ [AddEvents ["filterselectcomplete"];
                           NewFilterFormPanel {| fp_name := "test" |};
                           CallParent (Some o')] /\
    g_additionalParamKey w' = g_additionalParamKey initial_world /\ g_key w' = g_key initial_world /\
    wf_obj o' /\
    obj_lookup o' "title" = Some (CJs (JStr "Enter Parameters")) /\
    obj_lookup o' "layout" = Some (CJs (JStr "fit")) /\
    obj_lookup o' "modal" = Some (CJs (JBool true)) /\
    obj_lookup o' "width" = Some (CJs (JNum 500)) /\
    obj_lookup o' "height" = Some (CJs (JNum 500)) /\
    obj_lookup o' "items" = Some (CItems [{| fp_name := "test" |}]) /\
    obj_lookup o' "buttons" = Some (CButtons [search_button]) /\
    (forall k, k ∉ dialog_keys ->
       obj_lookup o' k = obj_lookup [("title", CJs (JStr "Mine")); ("id", CJs (JStr "w1"))] k).
Proof.
  apply (constructor_config [("title", CJs (JStr "Mine")); ("id", CJs (JStr "w1"))]).
  apply (bool_decide_unpack _). vm_compute. exact I.
Defined.

(** C25: the constructor called without a configuration object (or with
    null) still makes its three calls, but [Ext.apply] copies nothing:
    the parent constructor receives the argument as it came, and the
    window has no Search button, so a click finds nothing to run. *)
Theorem constructor_without_cfg (h : Host) (w : World) :
  exists w',
    constructor None w = (Ok None, w') /\
    trace w' = trace w ++ [AddEvents ["filterselectcomplete"];
                           NewFilterFormPanel {| fp_name := "test" |};
                           CallParent None] /\
    buttons_of None = [] /\
    click "Search" None h w' = (Ok tt, w').
Proof. eexists. split; [apply constructor_run|]. by world_simpl. Qed.

(** ** The Search button *)

(** C9: whatever object the caller passes, the window the constructor
    configures has exactly one button, labelled Search, and a click on
    it runs the handler of lines 27-56 with [this] bound to the window,
    so that [this._getTabPanels] is the method of the class. *)
Theorem search_button_runs_handler (o : Config) (h : Host) (w : World) :
  exists cfg' w' b,
    constructor (Some o) w = (Ok cfg', w') /\
    buttons_of cfg' = [b] /\ btn_text b = "Search" /\
    fireHandler b h = CSWFilterWindow_handler h.
Proof.
  eexists _, _, search_button. split; [apply constructor_run|].
  split; [apply buttons_of_configured|done].
Qed.

Lemma click_search_configured o h :
  click "Search" (Some (configured o)) h = CSWFilterWindow_handler h.
Proof. unfold click. by rewrite buttons_of_configured. Qed.

(** C24: creation followed by a click on Search, on a valid form with
    the registry group present: the three calls of the constructor,
    then the four calls of the handler with one panel per selected id,
    in this order and nothing else. *)
Theorem create_and_search_run (o : Config) (h : Host) (boxes : list Checkbox) (w : World) :
  isValid h = true -> wf_obj (getValues h) ->
  getCmp h "registryTabCheckboxGroup" = Some (CheckboxGroup boxes) ->
  exists w',
    create_and_search (Some o) h w = (Ok tt, w') /\
    trace w' = trace w ++ construction (Some o) ++ announcement (panels_of boxes (getValues h)).
Proof.
  intros Hv Hwf Hcmp.
  assert (checked_boxes h = Ok boxes) as Hreg.
  { unfold checked_boxes, getChecked. by rewrite Hcmp. }
  eexists. unfold create_and_search.
  rewrite (bind_ok' _ _ _ _ _ (constructor_run (Some o) w)).
  change (configured <$> Some o) with (Some (configured o)).
  rewrite click_search_configured, (handler_run_valid h boxes) by done.
  split; [done|]. world_simpl. by rewrite <- app_assoc.
Qed.

Lemma create_and_search_run_witness :
  exists w',
    create_and_search (Some []) host_B initial_world = (Ok tt, w') /\
    trace w' = trace initial_world ++ construction (Some [])
               ++ announcement (panels_of boxes_one (getValues host_B)).
Proof.
  apply (create_and_search_run [] host_B boxes_one); try reflexivity.
  apply (bool_decide_unpack _). vm_compute. exact I.
Defined.
