(* ===== verification/Lifecycle.v ===== *)
(** * The life of a dialog

    A dialog is created once and then receives clicks on Search until
    the handler closes it (line 53): a click on an invalid form, or one
    during which [this._getTabPanels] throws, leaves it open for another
    try, with the form as the user has changed it in between.  This file
    puts the constructor and the handler together as a transition
    system: the states are the phase of the dialog, its configuration
    and the world; the steps are [Create] and [Press], each defined by
    running the code of [Constructor] and [Handler].  A dialog is closed
    by a step exactly when the code called [parent.close()] during it.
    That a closed dialog takes no step is an assumption of the model,
    written as the side condition of [step_press]: Ext JS destroys a
    window that is closed, unless its configuration says otherwise.  The
    transition system is a model around the code, not a translation of
    lines of it.

    The invariant [dialog_inv] says what the trace of calls looks like
    in each phase; it is proved for every reachable state by induction
    on the steps.  From it: the event fires at most once in the life of
    a dialog, a failed try leaves no call behind, and a press on a valid
    form with the registry present closes the dialog. *)

From stdpp Require Import strings.
From stdpp Require Import base option list.
From S2P Require Import Prelude JsValue Panel Dialog World Fixtures Denormalise TabPanels Handler Constructor.

(** ** The transition system *)

Inductive Phase : Type :=
| Fresh      (* before [new CSWFilterWindow(cfg)] *)
| Open       (* created, not closed *)
| Closed.    (* after [parent.close()] *)

#[export] Instance Phase_eq_dec : EqDecision Phase.
Proof. solve_decision. Defined.

(** The dialog: its phase, the configuration it was created with and the
    world. *)
Record DialogState : Type := {
  phase : Phase;
  config : option Config;
  world : World;
}.

(** What happens to a dialog: it is created with an argument, or its
    Search button is pressed while the collaborators are [h]. *)
Inductive Action : Type :=
| Create (cfg : option Config)
| Press (h : Host).

(** The calls made between the worlds [w] and [w']. *)
Definition new_calls (w w' : World) : list Event :=
  drop (length (trace w)) (trace w').

(** The code called [parent.close()] between [w] and [w']. *)
Definition closes (w w' : World) : bool :=
  bool_decide (CloseWindow ∈ new_calls w w').

Definition fresh : DialogState :=
  {| phase := Fresh; config := None; world := initial_world |}.

(** The dialog after a run of the Search button's handler that left the
    world [w']. *)
Definition pressed (d : DialogState) (w' : World) : DialogState :=
  {| phase := if closes (world d) w' then Closed else Open;
     config := config d;
     world := w' |}.

Inductive step : DialogState -> Action -> DialogState -> Prop :=
| step_create d cfg cfg' w' :
    phase d = Fresh ->
    constructor cfg (world d) = (Ok cfg', w') ->
    step d (Create cfg) {| phase := Open; config := cfg'; world := w' |}
| step_press d h :
    phase d = Open ->
    step d (Press h) (pressed d (click "Search" (config d) h (world d)).2).

Inductive reachable : DialogState -> Prop :=
| reachable_fresh : reachable fresh
| reachable_step d a d' : reachable d -> step d a d' -> reachable d'.

(** The steps as a function: [None] when the action is not possible. *)
Definition do_action (d : DialogState) (a : Action) : option DialogState :=
  match phase d, a with
  | Fresh, Create cfg =>
      match constructor cfg (world d) with
      | (Ok cfg', w') => Some {| phase := Open; config := cfg'; world := w' |}
      | (Throw _, _) => None
      end
  | Open, Press h => Some (pressed d (click "Search" (config d) h (world d)).2)
  | _, _ => None
  end.

Fixpoint run (acts : list Action) (d : DialogState) : option DialogState :=
  match acts with
  | [] => Some d
  | a :: acts' => do_action d a ≫= run acts'
  end.

(** ** The invariant *)

(** The trace in each phase: empty before creation; the calls of the
    constructor while the dialog is open; these followed by one
    announcement once it is closed. *)
Definition dialog_inv (d : DialogState) : Prop :=
  match phase d with
  | Fresh => trace (world d) = []
  | Open => exists cfg, config d = configured <$> cfg /\ trace (world d) = construction cfg
  | Closed =>
      exists cfg ps, config d = configured <$> cfg /\
                     trace (world d) = construction cfg ++ announcement ps
  end.

(** The events [filterselectcomplete] of a trace. *)
Definition is_fire (e : Event) : bool :=
  match e with
  | FireEvent _ _ => true
  | _ => false
  end.

(** ** Lemmas *)

Lemma step_do_action d a d' : step d a d' <-> do_action d a = Some d'.
Proof.
  unfold do_action. split.
  - intros [d0 cfg cfg' w' Hp Hc|d0 h Hp]; rewrite Hp; [by rewrite Hc|done].
  - destruct (phase d) eqn:Hp, a as [cfg|h]; try done.
    + destruct (constructor cfg (world d)) as [[cfg'|e] w'] eqn:Hc; [|done].
      intros [= <-]. by eapply step_create.
    + intros [= <-]. by apply step_press.
Qed.

Lemma reachable_run acts d : run acts fresh = Some d -> reachable d.
Proof.
  assert (forall d0, reachable d0 -> run acts d0 = Some d -> reachable d) as H.
  { induction acts as [|a acts IH]; intros d0 Hd0; simpl; [by intros [= <-]|].
    destruct (do_action d0 a) as [d1|] eqn:Ha; [|done].
    apply IH. eapply reachable_step; [done|]. by apply step_do_action. }
  apply H, reachable_fresh.
Qed.

Lemma new_calls_none w w' : trace w' = trace w -> new_calls w w' = [].
Proof. intros Ht. unfold new_calls. rewrite Ht. by apply drop_all. Qed.

Lemma new_calls_app w w' es : trace w' = trace w ++ es -> new_calls w w' = es.
Proof. intros Ht. unfold new_calls. rewrite Ht. by apply drop_app_length. Qed.

Lemma close_in_announcement ps : CloseWindow ∈ announcement ps.
Proof. unfold announcement. rewrite !elem_of_cons. naive_solver. Qed.

Lemma close_not_in_construction cfg : CloseWindow ∉ construction cfg.
Proof.
  unfold construction. intros Hin.
  repeat (apply elem_of_cons in Hin as [?|Hin]; [done|]). by apply elem_of_nil in Hin.
Qed.

Lemma closes_announcement w w' ps :
  trace w' = trace w ++ announcement ps -> closes w w' = true.
Proof.
  intros Ht. unfold closes. rewrite (new_calls_app _ _ _ Ht).
  apply bool_decide_eq_true_2, close_in_announcement.
Qed.

(** A click on Search makes no call or one announcement. *)
Lemma click_calls cfg h w :
  trace (click "Search" (configured <$> cfg) h w).2 = trace w \/
  exists ps, trace (click "Search" (configured <$> cfg) h w).2 = trace w ++ announcement ps.
Proof.
  destruct cfg as [o|]; [|by left]. simpl.
  rewrite click_search_configured. apply (handler_calls (_getTabPanels h)).
Qed.

(** Every step keeps the invariant. *)
Lemma step_inv d a d' : dialog_inv d -> step d a d' -> dialog_inv d'.
Proof.
  intros Hinv Hstep. revert Hinv. unfold dialog_inv.
  destruct Hstep as [d cfg cfg' w' Hp Hc|d h Hp]; rewrite Hp; intros Hinv.
  - rewrite constructor_run in Hc. injection Hc as <- <-. exists cfg.
    split; [done|]. cbn [world]. world_simpl. by rewrite Hinv.
  - destruct Hinv as (cfg & Hcfg & Ht). rewrite Hcfg.
    destruct (click_calls cfg h (world d)) as [Hsame|[ps Hann]]; unfold pressed, closes; simpl.
    + rewrite (new_calls_none _ _ Hsame). simpl. exists cfg. by rewrite Hsame.
    + rewrite (new_calls_app _ _ _ Hann), bool_decide_eq_true_2 by apply close_in_announcement.
      exists cfg, ps. by rewrite Hann, Ht.
Qed.

Lemma fresh_inv : dialog_inv fresh.
Proof. done. Qed.

Lemma fires_construction cfg : List.filter is_fire (construction cfg) = [].
Proof. done. Qed.

Lemma fires_announcement ps :
  List.filter is_fire (announcement ps) = [FireEvent "filterselectcomplete" ps].
Proof. done. Qed.

(** What the invariant says of the trace: at most one event, and the
    close last, in the closed phase only. *)
Lemma inv_trace_shape d :
  dialog_inv d ->
  length (List.filter is_fire (trace (world d))) <= 1 /\
  (phase d = Closed <-> CloseWindow ∈ trace (world d)) /\
  (phase d = Closed -> last (trace (world d)) = Some CloseWindow).
Proof.
  unfold dialog_inv. intros Hinv. destruct (phase d) eqn:Hp.
  - rewrite Hinv. split_and!; [simpl; lia| |done]. split; [done|by intros ?%elem_of_nil].
  - destruct Hinv as (cfg & _ & ->). split_and!; [simpl; lia| |done].
    split; [done|]. by intros ?%close_not_in_construction.
  - destruct Hinv as (cfg & ps & _ & ->).
    rewrite List.filter_app, fires_construction, fires_announcement.
    split_and!; [simpl; lia| |done].
    split; [|done]. intros _. apply elem_of_app. right. apply close_in_announcement.
Qed.

(** ** Theorems *)

(** C11: every state a dialog can reach satisfies the invariant: before
    creation no call was made; while the dialog is open the trace holds
    the three calls of its constructor and nothing else, however many
    clicks were tried; once it is closed the trace holds these and the
    four calls of exactly one announcement. *)
Theorem reachable_dialog_inv (d : DialogState) : reachable d -> dialog_inv d.
Proof. induction 1 as [|d a d' _ IH Hstep]; [apply fresh_inv | by eapply step_inv]. Qed.

Lemma reachable_dialog_inv_witness :
  match run [Create (Some []); Press host_invalid; Press host_B] fresh with
  | Some d => dialog_inv d
  | None => False
  end.
Proof. apply (reachable_dialog_inv _ (reachable_run [Create (Some []); Press host_invalid; Press host_B] _ eq_refl)). Defined.

(** C12: whatever sequence of creation and clicks a dialog has been
    through, with whatever forms and registries at each click, the event
    [filterselectcomplete] has fired at most once; the dialog is closed
    exactly when [parent.close()] occurs in the trace, and that call is
    then the last one. *)
Theorem announces_at_most_once (d : DialogState) :
  reachable d ->
  length (List.filter is_fire (trace (world d))) <= 1 /\
  (phase d = Closed <-> CloseWindow ∈ trace (world d)) /\
  (phase d = Closed -> last (trace (world d)) = Some CloseWindow).
Proof.
  intros Hreach. apply inv_trace_shape.
  induction Hreach; eauto using fresh_inv, step_inv.
Qed.

Lemma announces_at_most_once_witness :
  match run [Create (Some []); Press host_unregistered; Press host_invalid; Press host_B] fresh with
  | Some d =>
      length (List.filter is_fire (trace (world d))) <= 1 /\
      (phase d = Closed <-> CloseWindow ∈ trace (world d)) /\
      (phase d = Closed -> last (trace (world d)) = Some CloseWindow)
  | None => False
  end.
Proof.
  apply (announces_at_most_once _
           (reachable_run [Create (Some []); Press host_unregistered; Press host_invalid; Press host_B]
                          _ eq_refl)).
Defined.

(** C13: a press of Search on an open dialog that was created with a
    configuration object, with a valid form and the registry group
    present, is a step that closes the dialog and adds to the trace the
    announcement of one panel per selected id. *)
Theorem valid_press_closes (d : DialogState) (h : Host) (boxes : list Checkbox) :
  dialog_inv d -> phase d = Open -> is_Some (config d) ->
  isValid h = true -> wf_obj (getValues h) ->
  getCmp h "registryTabCheckboxGroup" = Some (CheckboxGroup boxes) ->
  exists d',
    step d (Press h) d' /\ phase d' = Closed /\
    trace (world d') = trace (world d) ++ announcement (panels_of boxes (getValues h)).
Proof.
  unfold dialog_inv. intros Hinv Hp Hcfg Hv Hwf Hcmp. rewrite Hp in Hinv.
  destruct Hinv as ([o|] & Hc & _); [|rewrite Hc in Hcfg; by destruct Hcfg].
  assert (checked_boxes h = Ok boxes) as Hreg.
  { unfold checked_boxes, getChecked. by rewrite Hcmp. }
  eexists. split; [by apply step_press|].
  assert (trace (click "Search" (config d) h (world d)).2
          = trace (world d) ++ announcement (panels_of boxes (getValues h))) as Ht.
  { rewrite Hc. simpl. rewrite click_search_configured, (handler_run_valid h boxes) by done.
    by world_simpl. }
  unfold pressed. simpl. by rewrite (closes_announcement _ _ _ Ht).
Qed.

Lemma valid_press_closes_witness :
  exists d',
    step {| phase := Open; config := Some (configured []);
            world := with_events (construction (Some [])) initial_world |} (Press host_B) d' /\
    phase d' = Closed /\
    trace (world d')
    = trace (with_events (construction (Some [])) initial_world)
      ++ announcement (panels_of boxes_one (getValues host_B)).
Proof.
  apply (valid_press_closes
           {| phase := Open; config := Some (configured []);
              world := with_events (construction (Some [])) initial_world |} host_B boxes_one);
    try reflexivity.
  - by exists (Some []).
  - by eexists.
  - apply (bool_decide_unpack _). vm_compute. exact I.
Defined.
